(** * RetailAI: a shallow embedding of the turn router, the intent
    classifier, the time sub-agent, the general tool-using agent and the
    tool registry (src/main.py, src/agents/*.py, src/tools/*.py).

    Python [str] values are modelled as lists of Unicode code points
    ([pystr]); literals are written as UTF-8 Rocq strings and decoded by
    [u].  Python values stored in dictionaries (tool results, tool
    arguments) are modelled by [JVal].  Calls to the language model and
    the wall clock are inputs of the functions that use them. *)

From Stdlib Require Import String Ascii List ZArith Bool Lia QArith.
Import ListNotations.
#[local] Set Warnings "-register-all".
Open Scope Z_scope.

(* ------------------------------------------------------------------ *)
(** ** Python strings *)

Module Py.

Definition pystr := list Z.

(** UTF-8 decoding of the byte string of a Rocq literal. *)
Fixpoint utf8_dec (bs : list Z) : list Z :=
  match bs with
  | [] => []
  | b :: r =>
      if b <? 128 then b :: utf8_dec r
      else if b <? 224 then
        match r with
        | c :: r' => Z.lor (Z.shiftl (Z.land b 31) 6) (Z.land c 63) :: utf8_dec r'
        | [] => []
        end
      else if b <? 240 then
        match r with
        | c :: d :: r' =>
            Z.lor (Z.shiftl (Z.land b 15) 12)
                  (Z.lor (Z.shiftl (Z.land c 63) 6) (Z.land d 63)) :: utf8_dec r'
        | _ => []
        end
      else
        match r with
        | c :: d :: e :: r' =>
            Z.lor (Z.shiftl (Z.land b 7) 18)
              (Z.lor (Z.shiftl (Z.land c 63) 12)
                 (Z.lor (Z.shiftl (Z.land d 63) 6) (Z.land e 63))) :: utf8_dec r'
        | _ => []
        end
  end.

Definition u (s : string) : pystr :=
  utf8_dec (map (fun a => Z.of_nat (nat_of_ascii a)) (list_ascii_of_string s)).
Arguments u s%_string.

(** [a == b] on str. *)
Fixpoint str_eqb (a b : pystr) : bool :=
  match a, b with
  | [], [] => true
  | x :: a', y :: b' => (x =? y) && str_eqb a' b'
  | _, _ => false
  end.

(** [x in [l1, l2, ...]] for a list of str. *)
Fixpoint str_mem (x : pystr) (l : list pystr) : bool :=
  match l with
  | [] => false
  | y :: l' => str_eqb x y || str_mem x l'
  end.

Fixpoint is_prefix (p s : pystr) : bool :=
  match p, s with
  | [], _ => true
  | x :: p', y :: s' => (x =? y) && is_prefix p' s'
  | _ :: _, [] => false
  end.

(** [needle in hay] on str (substring test). *)
Fixpoint contains (needle hay : pystr) : bool :=
  match hay with
  | [] => is_prefix needle []
  | _ :: hay' => is_prefix needle hay || contains needle hay'
  end.

(** [str.isspace] on one code point (bidirectional class WS, B, S or
    category Zs). *)
Definition py_isspace (c : Z) : bool :=
  ((9 <=? c) && (c <=? 13)) || ((28 <=? c) && (c <=? 32)) || (c =? 133)
  || (c =? 160) || (c =? 5760) || ((8192 <=? c) && (c <=? 8202))
  || (c =? 8232) || (c =? 8233) || (c =? 8239) || (c =? 8287)
  || (c =? 12288).

Fixpoint lstrip (s : pystr) : pystr :=
  match s with
  | c :: s' => if py_isspace c then lstrip s' else s
  | [] => []
  end.

(** [s.strip()] *)
Definition strip (s : pystr) : pystr := rev (lstrip (rev (lstrip s))).

(** Truthiness of a str: non-empty. *)
Definition truthy (s : pystr) : bool :=
  match s with [] => false | _ => true end.

(** [sep.join(parts)] *)
Fixpoint join (sep : pystr) (parts : list pystr) : pystr :=
  match parts with
  | [] => []
  | [p] => p
  | p :: ps => p ++ sep ++ join sep ps
  end.

(** Decimal rendering of a non-negative integer ([str(n)] / ["%d"]). *)
Fixpoint pos_dec (fuel : nat) (p : positive) (acc : pystr) : pystr :=
  match fuel with
  | O => acc
  | S f =>
      let q := Z.pos p / 10 in
      let d := 48 + Z.pos p mod 10 in
      match q with
      | Z.pos q' => pos_dec f q' (d :: acc)
      | _ => d :: acc
      end
  end.

Definition z_dec (z : Z) : pystr :=
  match z with
  | Z0 => [48]
  | Z.pos p => pos_dec (Pos.size_nat p) p []
  | Z.neg p => 45 :: pos_dec (Pos.size_nat p) p []
  end.

(** Zero-padded two-digit rendering (["%02d"], used by strftime). *)
Definition pad2 (z : Z) : pystr := if z <? 10 then 48 :: z_dec z else z_dec z.

(** Python values held in dictionaries and lists. Floats are kept as
    exact rationals: no claim below depends on float rounding. *)
Inductive JVal :=
| JNone
| JBool (b : bool)
| JInt (z : Z)
| JFloat (q : Q)
| JStr (s : pystr)
| JList (l : list JVal)
| JDict (kv : list (pystr * JVal)).

(** [d.get(k)] on an association list in insertion order. *)
Fixpoint dget {A} (k : pystr) (d : list (pystr * A)) : option A :=
  match d with
  | [] => None
  | (k', v) :: d' => if str_eqb k k' then Some v else dget k d'
  end.

Definition has_key {A} (k : pystr) (d : list (pystr * A)) : bool :=
  match dget k d with Some _ => true | None => false end.

End Py.
Import Py.

(* ------------------------------------------------------------------ *)
(** ** Intent classifier (src/agents/intent_agent.py) *)

Module Intent.

(** [IntentType] *)
Definition TIME_RELATED : pystr := u "时间相关".
Definition NON_TIME_RELATED : pystr := u "非时间相关".
Definition UNKNOWN : pystr := u "未知".
Definition CANNOT_DETERMINE : pystr := u "无法判断".

(** Outcome of one [client.chat.completions.create] call:
    it raises (network, auth, rate limit, empty [choices], ...) with the
    message [str(e)], or returns a first choice whose [message.content]
    is a str or None. *)
Inductive Completion :=
| CallFailed (err : pystr)
| CallReturned (content : option pystr).

(** [IntentAgent.recognize_intent]: the model call is [c].  A [None]
    content makes [.strip()] raise, which the [except] turns into
    UNKNOWN like any other failure. *)
Definition recognize_intent (c : Completion) : pystr :=
  match c with
  | CallFailed _ => UNKNOWN
  | CallReturned None => UNKNOWN
  | CallReturned (Some content) =>
      let intent_result := strip content in
      if str_mem intent_result [TIME_RELATED; NON_TIME_RELATED; CANNOT_DETERMINE]
      then intent_result
      else UNKNOWN
  end.

Definition DEFAULT_CLARIFICATION : pystr :=
  u "请问您是想了解与时间相关的信息，还是其他方面的内容呢？".

(** [IntentAgent.generate_clarification_question]: the model call is [c]. *)
Definition generate_clarification_question (c : Completion) : pystr :=
  match c with
  | CallReturned (Some content) => strip content
  | _ => DEFAULT_CLARIFICATION
  end.

(** [IntentAgent.process_intent]: [c1] is the classification call,
    [c2] the clarification call (made only when needed). *)
Definition process_intent (c1 c2 : Completion) : pystr * option pystr :=
  let intent := recognize_intent c1 in
  if str_eqb intent CANNOT_DETERMINE || str_eqb intent UNKNOWN then
    (intent, Some (generate_clarification_question c2))
  else (intent, None).

End Intent.

(* ------------------------------------------------------------------ *)
(** ** Turn router (src/main.py, [run_agent], body of one turn after
    the exit check) *)

Module Router.
Import Intent.

Inductive TurnAction :=
| EmitClarification (q : pystr)   (* typewriter_print(q); continue *)
| InvokeTimeAgent                  (* time_agent.invoke(...) *)
| InvokeGeneralAgent.              (* agent.invoke(...) *)

(** [process_intent] never raises in this model (both of its calls catch
    every exception), so the [except] branch that sets
    [is_time_intent = False] is not taken. *)
Definition route_turn (c1 c2 : Completion) : TurnAction :=
  let '(intent_type, clarification_question) := process_intent c1 c2 in
  let dispatch :=
    if str_eqb intent_type TIME_RELATED then InvokeTimeAgent else InvokeGeneralAgent in
  match clarification_question with
  | Some q => if truthy q then EmitClarification q else dispatch
  | None => dispatch
  end.

End Router.

(* ------------------------------------------------------------------ *)
(** ** Python [eval] on the calculator's alphabet
    ([0-9 + - * / ( ) .] and space).  The source is tokenized and parsed
    as a whole first (a syntax error is raised before anything is
    evaluated), then evaluated left to right.  Floats are kept as exact
    rationals (no IEEE rounding or overflow); a power whose float result
    is irrational or complex is reported as [EvOutside]. *)

Module PyEval.

Inductive Op := OAdd | OSub | OMul | ODiv | OFloorDiv | OPow | ODot.

Inductive Tok :=
| TInt (z : Z)
| TFloat (q : Q)
| TOp (o : Op)
| TLParen
| TRParen.

Definition is_digit (c : Z) : bool := (48 <=? c) && (c <=? 57).

Fixpoint take_digits (s : pystr) : pystr * pystr :=
  match s with
  | c :: s' => if is_digit c then let '(d, r) := take_digits s' in (c :: d, r) else ([], s)
  | [] => ([], [])
  end.

Fixpoint digits_val (acc : Z) (d : pystr) : Z :=
  match d with
  | [] => acc
  | c :: d' => digits_val (10 * acc + (c - 48)) d'
  end.

(** Value of ["d1.d2"] as an exact rational. *)
Definition float_lit (d1 d2 : pystr) : Q :=
  Qmake (digits_val 0 (d1 ++ d2)) (Z.to_pos (10 ^ Z.of_nat (length d2))).

(** A decimal integer literal other than all zeros may not start with 0. *)
Definition bad_leading_zero (d : pystr) : bool :=
  match d with
  | 48 :: _ :: _ => existsb (fun c => negb (c =? 48)) d
  | _ => false
  end.

Fixpoint tokenize (fuel : nat) (s : pystr) : option (list Tok) :=
  match fuel with
  | O => None
  | S f =>
      match s with
      | [] => Some []
      | 32 :: r => tokenize f r
      | 40 :: r => option_map (cons TLParen) (tokenize f r)
      | 41 :: r => option_map (cons TRParen) (tokenize f r)
      | 43 :: r => option_map (cons (TOp OAdd)) (tokenize f r)
      | 45 :: r => option_map (cons (TOp OSub)) (tokenize f r)
      | 42 :: 42 :: r => option_map (cons (TOp OPow)) (tokenize f r)
      | 42 :: r => option_map (cons (TOp OMul)) (tokenize f r)
      | 47 :: 47 :: r => option_map (cons (TOp OFloorDiv)) (tokenize f r)
      | 47 :: r => option_map (cons (TOp ODiv)) (tokenize f r)
      | 46 :: r =>
          let '(d2, r') := take_digits r in
          match d2 with
          | [] => option_map (cons (TOp ODot)) (tokenize f r)
          | _ => option_map (cons (TFloat (float_lit [] d2))) (tokenize f r')
          end
      | c :: _ =>
          if is_digit c then
            let '(d1, r) := take_digits s in
            match r with
            | 46 :: r1 =>
                let '(d2, r2) := take_digits r1 in
                option_map (cons (TFloat (float_lit d1 d2))) (tokenize f r2)
            | _ =>
                if bad_leading_zero d1 then None
                else option_map (cons (TInt (digits_val 0 d1))) (tokenize f r)
            end
          else None
      end
  end.

Inductive Expr :=
| ENumI (z : Z)
| ENumF (q : Q)
| ETuple0                      (* () *)
| ENeg (e : Expr)
| EPos (e : Expr)
| EBin (o : Op) (a b : Expr).

(** Python's grammar restricted to these tokens:
    expr := term (('+'|'-') term)*; term := factor (('*'|'/'|'//') factor)*;
    factor := ('+'|'-') factor | power; power := atom ['**' factor];
    atom := NUMBER | '(' ')' | '(' expr ')'. *)
Fixpoint p_expr (n : nat) (ts : list Tok) : option (Expr * list Tok) :=
  match n with
  | O => None
  | S n' =>
      match p_term n' ts with
      | Some (e, r) => p_expr_rest n' e r
      | None => None
      end
  end
with p_expr_rest (n : nat) (e : Expr) (ts : list Tok) : option (Expr * list Tok) :=
  match n with
  | O => None
  | S n' =>
      match ts with
      | TOp ((OAdd | OSub) as o) :: r =>
          match p_term n' r with
          | Some (e2, r2) => p_expr_rest n' (EBin o e e2) r2
          | None => None
          end
      | _ => Some (e, ts)
      end
  end
with p_term (n : nat) (ts : list Tok) : option (Expr * list Tok) :=
  match n with
  | O => None
  | S n' =>
      match p_factor n' ts with
      | Some (e, r) => p_term_rest n' e r
      | None => None
      end
  end
with p_term_rest (n : nat) (e : Expr) (ts : list Tok) : option (Expr * list Tok) :=
  match n with
  | O => None
  | S n' =>
      match ts with
      | TOp ((OMul | ODiv | OFloorDiv) as o) :: r =>
          match p_factor n' r with
          | Some (e2, r2) => p_term_rest n' (EBin o e e2) r2
          | None => None
          end
      | _ => Some (e, ts)
      end
  end
with p_factor (n : nat) (ts : list Tok) : option (Expr * list Tok) :=
  match n with
  | O => None
  | S n' =>
      match ts with
      | TOp OSub :: r =>
          match p_factor n' r with Some (e, r') => Some (ENeg e, r') | None => None end
      | TOp OAdd :: r =>
          match p_factor n' r with Some (e, r') => Some (EPos e, r') | None => None end
      | _ => p_power n' ts
      end
  end
with p_power (n : nat) (ts : list Tok) : option (Expr * list Tok) :=
  match n with
  | O => None
  | S n' =>
      match p_atom n' ts with
      | Some (e, TOp OPow :: r) =>
          match p_factor n' r with
          | Some (e2, r2) => Some (EBin OPow e e2, r2)
          | None => None
          end
      | res => res
      end
  end
with p_atom (n : nat) (ts : list Tok) : option (Expr * list Tok) :=
  match n with
  | O => None
  | S n' =>
      match ts with
      | TInt z :: r => Some (ENumI z, r)
      | TFloat q :: r => Some (ENumF q, r)
      | TLParen :: TRParen :: r => Some (ETuple0, r)
      | TLParen :: r =>
          match p_expr n' r with
          | Some (e, TRParen :: r2) => Some (e, r2)
          | _ => None
          end
      | _ => None
      end
  end.

(** Whole-input parse; the fuel bounds the depth of the descent, which
    grows by at most a constant per token. *)
Definition parse (s : pystr) : option Expr :=
  match tokenize (S (length s)) s with
  | Some ts =>
      match p_expr (8 * length ts + 8) ts with
      | Some (e, []) => Some e
      | _ => None
      end
  | None => None
  end.

Inductive Val := VInt (z : Z) | VFloat (q : Q) | VTuple0.

Inductive EvalResult :=
| EvOk (v : Val)
| EvErr (msg : pystr)          (* str(e) of the raised exception *)
| EvOutside.                   (* irrational or complex float power *)

Definition type_name (v : Val) : pystr :=
  match v with VInt _ => u "int" | VFloat _ => u "float" | VTuple0 => u "tuple" end.

Definition op_text (o : Op) : pystr :=
  match o with
  | OAdd => u "+" | OSub => u "-" | OMul => u "*" | ODiv => u "/"
  | OFloorDiv => u "//" | OPow => u "** or pow()" | ODot => u "."
  end.

Definition unsupported (o : Op) (a b : Val) : EvalResult :=
  EvErr (u "unsupported operand type(s) for " ++ op_text o ++ u ": '" ++ type_name a
         ++ u "' and '" ++ type_name b ++ u "'").

Definition as_q (v : Val) : Q :=
  match v with VInt z => inject_Z z | VFloat q => q | VTuple0 => 0%Q end.

Definition q_is_zero (q : Q) : bool := Qeq_bool q 0.

Definition q_floor (q : Q) : Z := Z.div (Qnum q) (Z.pos (Qden q)).

Definition q_is_integral (q : Q) : bool := Z.eqb (Z.modulo (Qnum q) (Z.pos (Qden q))) 0.

(** [Q] raised to an integer power. *)
Definition q_pow_z (q : Q) (z : Z) : Q :=
  if 0 <=? z then Qpower q z else Qinv (Qpower q (- z)).

Definition eval_bin (o : Op) (a b : Val) : EvalResult :=
  match o, a, b with
  | OAdd, VTuple0, VTuple0 => EvOk VTuple0
  | OAdd, VTuple0, _ =>
      EvErr (u "can only concatenate tuple (not " ++ [34] ++ type_name b ++ [34] ++ u ") to tuple")
  | OAdd, _, VTuple0 => unsupported o a b
  | OAdd, VInt x, VInt y => EvOk (VInt (x + y))
  | OAdd, _, _ => EvOk (VFloat (as_q a + as_q b)%Q)
  | OSub, VInt x, VInt y => EvOk (VInt (x - y))
  | OSub, VTuple0, _ | OSub, _, VTuple0 => unsupported o a b
  | OSub, _, _ => EvOk (VFloat (as_q a - as_q b)%Q)
  | OMul, VTuple0, VInt _ | OMul, VInt _, VTuple0 => EvOk VTuple0
  | OMul, VTuple0, _ =>
      EvErr (u "can't multiply sequence by non-int of type '" ++ type_name b ++ u "'")
  | OMul, _, VTuple0 =>
      EvErr (u "can't multiply sequence by non-int of type '" ++ type_name a ++ u "'")
  | OMul, VInt x, VInt y => EvOk (VInt (x * y))
  | OMul, _, _ => EvOk (VFloat (as_q a * as_q b)%Q)
  | ODiv, VTuple0, _ | ODiv, _, VTuple0 => unsupported o a b
  | ODiv, VInt _, VInt _ =>
      if q_is_zero (as_q b) then EvErr (u "division by zero")
      else EvOk (VFloat (as_q a / as_q b)%Q)
  | ODiv, _, _ =>
      if q_is_zero (as_q b) then EvErr (u "float division by zero")
      else EvOk (VFloat (as_q a / as_q b)%Q)
  | OFloorDiv, VTuple0, _ | OFloorDiv, _, VTuple0 => unsupported o a b
  | OFloorDiv, VInt x, VInt y =>
      if y =? 0 then EvErr (u "integer division or modulo by zero")
      else EvOk (VInt (Z.div x y))
  | OFloorDiv, _, _ =>
      if q_is_zero (as_q b) then EvErr (u "float floor division by zero")
      else EvOk (VFloat (inject_Z (q_floor (as_q a / as_q b)%Q)))
  | OPow, VTuple0, _ | OPow, _, VTuple0 => unsupported o a b
  | OPow, VInt x, VInt y =>
      if 0 <=? y then EvOk (VInt (x ^ y))
      else if x =? 0 then EvErr (u "0.0 cannot be raised to a negative power")
      else EvOk (VFloat (q_pow_z (inject_Z x) y))
  | OPow, _, _ =>
      if q_is_integral (as_q b) then
        if q_is_zero (as_q a) && (q_floor (as_q b) <? 0)
        then EvErr (u "0.0 cannot be raised to a negative power")
        else EvOk (VFloat (q_pow_z (as_q a) (q_floor (as_q b))))
      else EvOutside
  | ODot, _, _ => unsupported o a b
  end.

Fixpoint eval_expr (e : Expr) : EvalResult :=
  match e with
  | ENumI z => EvOk (VInt z)
  | ENumF q => EvOk (VFloat q)
  | ETuple0 => EvOk VTuple0
  | ENeg e1 =>
      match eval_expr e1 with
      | EvOk (VInt z) => EvOk (VInt (- z))
      | EvOk (VFloat q) => EvOk (VFloat (- q)%Q)
      | EvOk VTuple0 => EvErr (u "bad operand type for unary -: 'tuple'")
      | r => r
      end
  | EPos e1 =>
      match eval_expr e1 with
      | EvOk VTuple0 => EvErr (u "bad operand type for unary +: 'tuple'")
      | r => r
      end
  | EBin o a b =>
      match eval_expr a with
      | EvOk va =>
          match eval_expr b with
          | EvOk vb => eval_bin o va vb
          | r => r
          end
      | r => r
      end
  end.

(** [eval(s)] for a str over the calculator's alphabet (leading spaces
    are skipped by the tokenizer, as [eval] does). *)
Definition py_eval (s : pystr) : EvalResult :=
  match parse s with
  | Some e => eval_expr e
  | None => EvErr (u "invalid syntax (<string>, line 1)")
  end.

End PyEval.

(* ------------------------------------------------------------------ *)
(** ** [str()] and [repr()] of Python values (used by f-strings).
    Floats are rendered from their exact rational value (integral ones
    as ["n.0"], others with at most 17 fractional digits); Python's
    shortest round-trip and exponent notation are not reproduced, and
    [repr] of a str escapes only backslash, the quote, tab, newline,
    carriage return and the other ASCII control characters. *)

Module PyStrConv.

Fixpoint drop_zeros (s : pystr) : pystr :=
  match s with
  | 48 :: s' => drop_zeros s'
  | _ => s
  end.

Fixpoint frac_go (d : Z) (k : nat) (r : Z) : pystr :=
  match k with
  | O => []
  | S k' => if r =? 0 then [] else (48 + (10 * r) / d) :: frac_go d k' ((10 * r) mod d)
  end.

Definition float_str (q : Q) : pystr :=
  let n := Qnum q in
  let d := Z.pos (Qden q) in
  let sign := if n <? 0 then [45] else [] in
  let a := Z.abs n in
  let fr := rev (drop_zeros (rev (frac_go d 17%nat (a mod d)))) in
  sign ++ z_dec (a / d) ++ [46] ++ (match fr with [] => [48] | _ => fr end).

Definition hex_digit (z : Z) : Z := if z <? 10 then 48 + z else 87 + z.

Definition str_repr (s : pystr) : pystr :=
  let q := if existsb (Z.eqb 39) s && negb (existsb (Z.eqb 34) s) then 34 else 39 in
  let esc (c : Z) : pystr :=
    if c =? 92 then [92; 92]
    else if c =? q then [92; q]
    else if c =? 9 then [92; 116]
    else if c =? 10 then [92; 110]
    else if c =? 13 then [92; 114]
    else if (c <? 32) || (c =? 127) then [92; 120; hex_digit (c / 16); hex_digit (c mod 16)]
    else [c] in
  q :: concat (map esc s) ++ [q].

Fixpoint py_repr (v : JVal) : pystr :=
  match v with
  | JNone => u "None"
  | JBool true => u "True"
  | JBool false => u "False"
  | JInt z => z_dec z
  | JFloat q => float_str q
  | JStr s => str_repr s
  | JList l => [91] ++ join (u ", ") (map py_repr l) ++ [93]
  | JDict kv =>
      [123] ++ join (u ", ") (map (fun '(k, x) => str_repr k ++ u ": " ++ py_repr x) kv)
      ++ [125]
  end.

(** [str(v)] / [f"{v}"] *)
Definition py_str (v : JVal) : pystr :=
  match v with
  | JStr s => s
  | _ => py_repr v
  end.

Definition jtype_name (v : JVal) : pystr :=
  match v with
  | JNone => u "NoneType" | JBool _ => u "bool" | JInt _ => u "int"
  | JFloat _ => u "float" | JStr _ => u "str" | JList _ => u "list"
  | JDict _ => u "dict"
  end.

(** Message of the AttributeError raised by [v.attr]. *)
Definition no_attr (v : JVal) (attr : pystr) : pystr :=
  [39] ++ jtype_name v ++ u "' object has no attribute '" ++ attr ++ [39].

(** [str.upper] on ASCII letters (the exchange codes 'sh' and 'sz');
    other code points are left unchanged. *)
Definition ascii_upper (s : pystr) : pystr :=
  map (fun c => if (97 <=? c) && (c <=? 122) then c - 32 else c) s.

End PyStrConv.
Import PyStrConv.

(* ------------------------------------------------------------------ *)
(** ** Tools (src/tools/__init__.py, src/tools/impl/*.py) *)

Module Tools.
Import PyEval.

(** What a tool's [call] method does: return a dict, or let an exception
    escape (its [str(e)]).  [OutsideModel] is the calculator's result for
    a float power that [PyEval] does not represent. *)
Inductive ToolOutcome :=
| Returned (r : JVal)
| Raised (err : pystr)
| OutsideModel.

Definition ok_result (data : JVal) : JVal :=
  JDict [(u "success", JBool true); (u "data", data)].

Definition err_result (msg : pystr) : JVal :=
  JDict [(u "success", JBool false); (u "error", JStr msg)].

(** Outcome of [requests.post(...)] followed by [raise_for_status()] and
    [response.json()]. *)
Inductive HttpOutcome :=
| HttpOk (body : JVal)
| HttpRequestException (msg : pystr)   (* a requests.exceptions.RequestException *)
| HttpOtherException (msg : pystr).    (* any other exception *)

(** [ExternalTool.call]: only [RequestException] is caught. *)
Definition external_call (h : HttpOutcome) : ToolOutcome :=
  match h with
  | HttpOk body => Returned (ok_result body)
  | HttpRequestException m => Returned (err_result m)
  | HttpOtherException m => Raised m
  end.

(** [params.get(k, default)]: an AttributeError unless [params] is a dict. *)
Definition pget (params : JVal) (k : pystr) (dflt : JVal) : JVal + pystr :=
  match params with
  | JDict kv => inl (match dget k kv with Some v => v | None => dflt end)
  | _ => inr (no_attr params (u "get"))
  end.

Definition ALLOWED_CHARS : pystr := u "0123456789+-*/(). ".

(** The items of [for char in expression]; [None]: not iterable. *)
Definition iter_items (v : JVal) : option (list JVal) :=
  match v with
  | JStr s => Some (map (fun c => JStr [c]) s)
  | JList l => Some l
  | JDict kv => Some (map (fun kv => JStr (fst kv)) kv)
  | _ => None
  end.

Inductive CheckResult :=
| AllAllowed
| Disallowed (c : pystr)
| CheckTypeError (msg : pystr).

(** The allow-list loop: [if char not in allowed_chars: return ...]. *)
Fixpoint check_chars (items : list JVal) : CheckResult :=
  match items with
  | [] => AllAllowed
  | JStr c :: r => if contains c ALLOWED_CHARS then check_chars r else Disallowed c
  | it :: _ =>
      CheckTypeError (u "'in <string>' requires string as left operand, not " ++ jtype_name it)
  end.

Definition val_to_jval (v : Val) : JVal :=
  match v with VInt z => JInt z | VFloat q => JFloat q | VTuple0 => JList [] end.

(** [CalculatorTool.call], with the evaluator [ev] standing for [eval]
    (instantiated with [py_eval] below). *)
Definition calculator_call_with (ev : pystr -> EvalResult) (params : JVal) : ToolOutcome :=
  match pget params (u "expression") (JStr []) with
  | inr msg => Raised msg
  | inl expression =>
      match iter_items expression with
      | None =>
          Returned (err_result (u "计算错误: '" ++ jtype_name expression ++ u "' object is not iterable"))
      | Some items =>
          match check_chars items with
          | Disallowed c => Returned (err_result (u "不允许的字符: " ++ c))
          | CheckTypeError m => Returned (err_result (u "计算错误: " ++ m))
          | AllAllowed =>
              match expression with
              | JStr s =>
                  match ev s with
                  | EvOk v =>
                      Returned (ok_result (JDict [(u "expression", expression);
                                                  (u "result", val_to_jval v)]))
                  | EvErr m => Returned (err_result (u "计算错误: " ++ m))
                  | EvOutside => OutsideModel
                  end
              | _ =>
                  Returned (err_result
                    (u "计算错误: eval() arg 1 must be a string, bytes or code object"))
              end
          end
      end
  end.

Definition calculator_call (params : JVal) : ToolOutcome :=
  calculator_call_with py_eval params.

(** [WeatherTool.call] *)
Definition weather_call (params : JVal) : ToolOutcome :=
  match pget params (u "city") (JStr []), pget params (u "date") (JStr (u "今天")) with
  | inr m, _ | inl _, inr m => Raised m
  | inl city, inl date =>
      Returned (ok_result (JDict [(u "city", city); (u "date", date);
        (u "temperature", JInt 25); (u "weather", JStr (u "晴朗"));
        (u "humidity", JInt 60); (u "wind_speed", JInt 15)]))
  end.

(** [StockTool.call]: [exchange.upper()] needs a str. *)
Definition stock_call (params : JVal) : ToolOutcome :=
  match pget params (u "symbol") (JStr []), pget params (u "exchange") (JStr (u "sh")) with
  | inr m, _ | inl _, inr m => Raised m
  | inl symbol, inl exchange =>
      match exchange with
      | JStr ex =>
          Returned (ok_result (JDict [(u "symbol", symbol); (u "exchange", exchange);
            (u "full_symbol", JStr (ascii_upper ex ++ py_str symbol));
            (u "name", JStr (u "示例股票"));
            (u "current_price", JFloat (12345 # 100)); (u "open_price", JFloat (120 # 1));
            (u "high_price", JFloat (125 # 1)); (u "low_price", JFloat (1195 # 10));
            (u "volume", JInt 1000000); (u "change", JFloat (345 # 100));
            (u "change_percent", JFloat (285 # 100))]))
      | _ => Raised (no_attr exchange (u "upper"))
      end
  end.

(** A registered tool: its [name] and its [call(endpoint, params)]. *)
Record Tool := {
  tool_name : pystr;
  tool_call : pystr -> JVal -> ToolOutcome
}.

Definition WeatherTool : Tool := {| tool_name := u "get_weather"; tool_call := fun _ => weather_call |}.
Definition StockTool : Tool := {| tool_name := u "get_stock_info"; tool_call := fun _ => stock_call |}.
Definition CalculatorTool : Tool := {| tool_name := u "calculate"; tool_call := fun _ => calculator_call |}.

(** [ToolRegistry.tools]: a dict from name to tool, in insertion order. *)
Definition Registry := list (pystr * Tool).

(** [register_tool]: [self.tools[tool.name] = tool] (an existing key keeps
    its position and gets the new tool). *)
Definition register_tool (reg : Registry) (t : Tool) : Registry :=
  if has_key (tool_name t) reg then
    map (fun '(k, x) => if str_eqb k (tool_name t) then (k, t) else (k, x)) reg
  else reg ++ [(tool_name t, t)].

Definition create_tool_registry : Registry :=
  register_tool (register_tool (register_tool [] WeatherTool) StockTool) CalculatorTool.

(** [registry.get_tool(name)] = [self.tools.get(name)]; the keys are str,
    so a name that is not a str is simply absent (an unhashable list or
    dict name raises TypeError). *)
Definition get_tool (reg : Registry) (name : JVal) : option Tool + pystr :=
  match name with
  | JStr s => inl (dget s reg)
  | JList _ => inr (u "unhashable type: 'list'")
  | JDict _ => inr (u "unhashable type: 'dict'")
  | _ => inl None
  end.

(** [handle_tool_call(tool_call, registry)] with [tool_call] (here
    [call_dict]) the dict
    [{"name": name, "arguments": args}] (an absent key is [None] for the
    name and [{}] for the arguments). *)
Definition handle_tool_call (reg : Registry) (call_dict : list (pystr * JVal)) : ToolOutcome :=
  let tool_name_v := match dget (u "name") call_dict with Some v => v | None => JNone end in
  let tool_params := match dget (u "arguments") call_dict with Some v => v | None => JDict [] end in
  match get_tool reg tool_name_v with
  | inr m => Raised m
  | inl None => Returned (err_result (u "工具 " ++ py_str tool_name_v ++ u " 不存在"))
  | inl (Some t) => tool_call t (py_str tool_name_v) tool_params
  end.

End Tools.

(* ------------------------------------------------------------------ *)
(** ** Conversation messages (the dicts both agents append) *)

Module Conv.

Inductive Role := System | User | Assistant | ToolRole.

(** The ["content"] key: absent, [None], or a str. *)
Inductive Content := NoContent | NullContent | Text (s : pystr).

(** One entry of a message's ["tool_calls"] list.  The time agent builds
    [{"name": n, "arguments": json.dumps(args)}] and parses the arguments
    back with [json.loads]; that round trip of a dict of str is the
    identity, so the parsed dict [args] is kept.  The general agent
    builds [{"function": {"name": n, "arguments": text}}] with the
    model's argument text. *)
Inductive ToolCallD :=
| TimeCall (name : pystr) (args : list (pystr * pystr))
| FnCall (name : pystr) (arguments : pystr).

Record Msg := {
  role : Role;
  content : Content;
  tool_calls : option (list ToolCallD);   (* None: no "tool_calls" key *)
  mname : option pystr                    (* the "name" key of a tool message *)
}.

Definition text_msg (r : Role) (s : pystr) : Msg :=
  {| role := r; content := Text s; tool_calls := None; mname := None |}.

Definition role_eqb (a b : Role) : bool :=
  match a, b with
  | System, System | User, User | Assistant, Assistant | ToolRole, ToolRole => true
  | _, _ => false
  end.

Fixpoint last_opt {A} (l : list A) : option A :=
  match l with
  | [] => None
  | [x] => Some x
  | _ :: l' => last_opt l'
  end.

(** [msg.get("content", "")] of the first user message, as in
    [for msg in messages: if msg.get("role") == "user": ...; break];
    [None] stands for Python's None. *)
Fixpoint first_user_question (ms : list Msg) : option pystr :=
  match ms with
  | [] => Some []
  | m :: ms' =>
      if role_eqb (role m) User then
        match content m with
        | NoContent => Some []
        | NullContent => None
        | Text s => Some s
        end
      else first_user_question ms'
  end.

End Conv.
Import Conv.

(* ------------------------------------------------------------------ *)
(** ** Time sub-agent (src/agents/time_agent.py) *)

Module Time.

(** [datetime.now(pytz.timezone(tz))]: the fields the code reads. *)
Record DateTime := {
  year : Z; month : Z; day : Z; hour : Z; minute : Z; second : Z;
  microsecond : Z;
  weekday : Z;            (* 0 = Monday .. 6 = Sunday *)
  utcoffset_min : Z;
  tzname : pystr          (* strftime("%Z") *)
}.

Definition en_weekday (w : Z) : pystr :=
  match w with
  | 0 => u "Monday" | 1 => u "Tuesday" | 2 => u "Wednesday" | 3 => u "Thursday"
  | 4 => u "Friday" | 5 => u "Saturday" | _ => u "Sunday"
  end.

(** The [weekdays] dict of [get_current_time] ([.get(en, en)]). *)
Definition zh_weekday_of (en : pystr) : pystr :=
  match dget en [(u "Monday", u "星期一"); (u "Tuesday", u "星期二");
                 (u "Wednesday", u "星期三"); (u "Thursday", u "星期四");
                 (u "Friday", u "星期五"); (u "Saturday", u "星期六");
                 (u "Sunday", u "星期日")] with
  | Some z => z
  | None => en
  end.

Definition padn (n : nat) (z : Z) : pystr :=
  let d := z_dec z in repeat 48 (n - length d) ++ d.

Definition strftime_hms (t : DateTime) : pystr :=
  pad2 (hour t) ++ u ":" ++ pad2 (minute t) ++ u ":" ++ pad2 (second t).

Definition strftime_ymd (t : DateTime) : pystr :=
  z_dec (year t) ++ u "-" ++ pad2 (month t) ++ u "-" ++ pad2 (day t).

Definition isoformat (t : DateTime) : pystr :=
  let off := utcoffset_min t in
  let sign := if off <? 0 then u "-" else u "+" in
  padn 4 (year t) ++ u "-" ++ pad2 (month t) ++ u "-" ++ pad2 (day t) ++ u "T"
  ++ strftime_hms t
  ++ (if microsecond t =? 0 then [] else u "." ++ padn 6 (microsecond t))
  ++ sign ++ pad2 (Z.abs off / 60) ++ u ":" ++ pad2 (Z.abs off mod 60).

(** [strftime("%Y年%m月%d日 ") + zh_weekday] *)
Definition zh_date (t : DateTime) : pystr :=
  z_dec (year t) ++ u "年" ++ pad2 (month t) ++ u "月" ++ pad2 (day t) ++ u "日 "
  ++ zh_weekday_of (en_weekday (weekday t)).

Definition VALID_TIMEZONES_HINT : list pystr :=
  [u "Asia/Shanghai"; u "America/New_York"; u "Europe/London"; u "Asia/Tokyo";
   u "Australia/Sydney"].

Definition DEFAULT_TZ : pystr := u "Asia/Shanghai".

Section TimeAgent.

(** [pytz.all_timezones] *)
Variable all_timezones : list pystr.
(** The clock: [datetime.now(pytz.timezone(tz))] for a valid [tz]. *)
Variable clock : pystr -> DateTime.
(** [json.dumps(result, ensure_ascii=False)] *)
Variable json_dumps : JVal -> pystr.

(** [get_current_time(timezone, format)].  For a str timezone nothing in
    the [try] body raises (pytz accepts every name of [all_timezones]),
    so the [except] branch is not taken. *)
Definition get_current_time (timezone : pystr) (format : option pystr) : JVal :=
  if negb (str_mem timezone all_timezones) then
    JDict [(u "error", JStr (u "无效的时区标识符: " ++ timezone));
           (u "valid_timezones", JList (map JStr VALID_TIMEZONES_HINT))]
  else
    let t := clock timezone in
    let is_fmt (f : pystr) := match format with Some s => str_eqb s f | None => false end in
    let base :=
      [(u "timezone", JStr timezone); (u "datetime", JStr (isoformat t));
       (u "year", JInt (year t)); (u "month", JInt (month t)); (u "day", JInt (day t));
       (u "hour", JInt (hour t)); (u "minute", JInt (minute t));
       (u "second", JInt (second t)); (u "weekday", JStr (en_weekday (weekday t)));
       (u "formatted_time", JStr (strftime_ymd t ++ u " " ++ strftime_hms t));
       (u "timezone_abbreviation", JStr (tzname t))] in
    let with_time :=
      if is_fmt (u "time") || is_fmt (u "both") then base ++ [(u "time", JStr (strftime_hms t))]
      else base in
    let with_date :=
      if is_fmt (u "date") || is_fmt (u "both") then
        with_time ++ [(u "date", JStr (zh_date t))]
      else with_time in
    JDict with_date.

(** The keys [get_current_time] writes for a valid timezone. *)
Definition time_field_keys : list pystr :=
  map u ["timezone"; "datetime"; "year"; "month"; "day"; "hour"; "minute"; "second";
         "weekday"; "formatted_time"; "timezone_abbreviation"; "time"; "date"]%string.

(** [fallback_get_current_time(format="both", timezone=...)] *)
Definition fallback_get_current_time (format : pystr) (timezone : pystr) : JVal :=
  get_current_time timezone (Some format).

Definition time_keywords : list pystr :=
  map u ["几点"; "时间"; "现在"; "日期"; "几号"; "星期"; "今天"; "明天"; "昨天";
         "时刻"; "几点钟"; "时区"]%string.

(** [any(keyword in user_question for keyword in time_keywords)] *)
Definition is_time_related (q : pystr) : bool :=
  existsb (fun k => contains k q) time_keywords.

(** [city_keywords] of [extract_locations_from_question], in order. *)
Definition city_keywords : list (pystr * pystr) :=
  map (fun s => (u s, u s))
    ["北京"; "上海"; "广州"; "深圳"; "纽约"; "洛杉矶"; "芝加哥"; "伦敦"; "巴黎";
     "东京"; "悉尼"]%string.

Fixpoint extract_go (question : pystr) (kws : list (pystr * pystr)) (locations : list pystr)
  : list pystr :=
  match kws with
  | [] => locations
  | (keyword, city) :: kws' =>
      extract_go question kws'
        (if contains keyword question && negb (str_mem city locations)
         then locations ++ [city] else locations)
  end.

Definition extract_locations_from_question (question : pystr) : list pystr :=
  extract_go question city_keywords [].

Definition timezone_mapping : list (pystr * pystr) :=
  map (fun '(a, b) => (u a, u b))
    [("北京", "Asia/Shanghai"); ("上海", "Asia/Shanghai"); ("广州", "Asia/Shanghai");
     ("深圳", "Asia/Shanghai"); ("纽约", "America/New_York");
     ("洛杉矶", "America/Los_Angeles"); ("芝加哥", "America/Chicago");
     ("伦敦", "Europe/London"); ("巴黎", "Europe/Paris"); ("东京", "Asia/Tokyo");
     ("悉尼", "Australia/Sydney"); ("默认", "Asia/Shanghai")]%string.

(** [map_location_to_timezone]: [timezone_mapping.get(location, "Asia/Shanghai")] *)
Definition map_location_to_timezone (location : pystr) : pystr :=
  match dget location timezone_mapping with Some tz => tz | None => DEFAULT_TZ end.

Definition DEFAULT_LOC : pystr := u "默认".

(** Step 2 of [decide_next] and of [extract_locations]. *)
Definition locations_and_timezones_of (locations : list pystr) : list (pystr * pystr) :=
  match map (fun l => (l, map_location_to_timezone l)) locations with
  | [] => [(DEFAULT_LOC, DEFAULT_TZ)]
  | lt => lt
  end.

(** [extract_locations(user_question)]: a None question makes the
    substring test raise, and the [except] returns the default. *)
Definition extract_locations (q : option pystr) : list (pystr * pystr) :=
  match q with
  | Some question => locations_and_timezones_of (extract_locations_from_question question)
  | None => [(DEFAULT_LOC, DEFAULT_TZ)]
  end.

(** The graph state.  [StateGraph(dict)] has a single root channel: the
    dict a node returns becomes the whole state the next node reads, so a
    key a node does not return is gone afterwards. *)
Record TState := {
  st_messages : option (list Msg);                (* "messages" *)
  st_requested : option (list (pystr * pystr));   (* "requested_locations" *)
  st_next : option pystr;                         (* "next" *)
  st_ai_response : option pystr                   (* "ai_response" *)
}.

Definition mk_state ms req nx ai : TState :=
  {| st_messages := ms; st_requested := req; st_next := nx; st_ai_response := ai |}.

Definition get_messages (st : TState) : list Msg :=
  match st_messages st with Some ms => ms | None => [] end.

Definition REFUSAL : pystr := u "抱歉，我是时间助手，只能回答与时间和日期相关的问题。".
Definition NO_TOOL_CALL : pystr := u "抱歉，无法识别工具调用。".
Definition TIME_TOOL_NAME : pystr := u "get_current_time".

(** [str(e)] of the TypeError raised by [keyword in None]. *)
Definition NONE_NOT_ITERABLE : pystr := u "argument of type 'NoneType' is not iterable".

(** The tool-call request built for one (location, timezone) pair. *)
Definition time_request (lt : pystr * pystr) : ToolCallD :=
  TimeCall TIME_TOOL_NAME [(u "format", u "both"); (u "timezone", snd lt)].

(** [{"role": "assistant", "tool_calls": tool_calls}] *)
Definition tool_request_msg (tcs : list ToolCallD) : Msg :=
  {| role := Assistant; content := NoContent; tool_calls := Some tcs; mname := None |}.

(** The [try] body of [decide_next] after the tool-result check. *)
Definition decide_body (messages : list Msg) : TState :=
  match first_user_question messages with
  | None =>
      mk_state (Some (messages ++ [text_msg Assistant (u "处理请求时出错: " ++ NONE_NOT_ITERABLE)]))
        None (Some (u "end")) None
  | Some user_question =>
      if is_time_related user_question then
        let lt := locations_and_timezones_of (extract_locations_from_question user_question) in
        let assistant_message := tool_request_msg (map time_request lt) in
        mk_state (Some (messages ++ [assistant_message])) (Some lt) (Some (u "call_tool")) None
      else
        mk_state (Some (messages ++ [text_msg Assistant REFUSAL])) None (Some (u "end")) None
  end.

(** [decide_next] *)
Definition decide_next (st : TState) : TState :=
  let messages := get_messages st in
  match last_opt messages with
  | Some m =>
      if role_eqb (role m) ToolRole
      then mk_state (Some messages) None (Some (u "summarize")) None
      else decide_body messages
  | None => decide_body messages
  end.

Definition tool_msg (c : pystr) (name : option pystr) : Msg :=
  {| role := ToolRole; content := Text c; tool_calls := None; mname := name |}.

(** [tool_func] called with the parsed arguments as keyword arguments
    ([get_current_time] is the only registered time tool). *)
Definition call_time_tool (args : list (pystr * pystr)) : JVal + pystr :=
  match find (fun kv => negb (str_mem (fst kv) [u "timezone"; u "format"])) args with
  | Some (k, _) =>
      inr (u "get_current_time() got an unexpected keyword argument '" ++ k ++ [39])
  | None =>
      inl (get_current_time (match dget (u "timezone") args with Some tz => tz | None => DEFAULT_TZ end)
                            (dget (u "format") args))
  end.

(** One iteration of the loop of [call_tool_node]. *)
Definition call_one (tc : ToolCallD) : Msg :=
  match tc with
  | TimeCall name args =>
      if str_eqb name TIME_TOOL_NAME then
        match call_time_tool args with
        | inl result => tool_msg (json_dumps result) (Some name)
        | inr e => tool_msg (u "工具调用失败: " ++ e) (Some name)
        end
      else tool_msg (u "未知工具: " ++ name) (Some name)
  | FnCall _ _ =>
      (* tool_call.get("name") is None and json.loads("{}") is {} *)
      tool_msg (u "未知工具: None") None
  end.

(** [call_tool_node] *)
Definition call_tool_node (st : TState) : TState :=
  let messages := get_messages st in
  let fail := mk_state (Some (messages ++ [text_msg Assistant NO_TOOL_CALL])) None (Some (u "end")) None in
  match last_opt messages with
  | Some m =>
      match role m, tool_calls m with
      | Assistant, Some tcs =>
          mk_state (Some (messages ++ map call_one tcs)) None (Some (u "summarize")) None
      | _, _ => fail
      end
  | None => fail
  end.

Definition time_of (r : JVal) : option JVal :=
  match r with JDict kv => dget (u "time") kv | _ => None end.
Definition date_of (r : JVal) : option JVal :=
  match r with JDict kv => dget (u "date") kv | _ => None end.

(** The clause(s) the [requested_locations] loop adds for one location. *)
Definition clause (location : pystr) (r : JVal) : list pystr :=
  match time_of r, date_of r with
  | Some t, Some d => [location ++ u "当前时间是 " ++ py_str t ++ u "，今天是 " ++ py_str d]
  | Some t, None => [location ++ u "当前时间是 " ++ py_str t]
  | None, Some d => [location ++ u "今天是 " ++ py_str d]
  | None, None => []
  end.

(** The clause the re-extraction loop adds (only when both keys exist). *)
Definition clause_both (location : pystr) (r : JVal) : list pystr :=
  match time_of r, date_of r with
  | Some t, Some d => [location ++ u "当前时间是 " ++ py_str t ++ u "，今天是 " ++ py_str d]
  | _, _ => []
  end.

(** Joining the clauses by their count. *)
Definition combine_summaries (summaries : list pystr) : pystr :=
  match summaries with
  | [s] => s ++ u "。"
  | [_; _] => join (u "；") summaries ++ u "。"
  | _ => join (u "<br>• ") ([] :: summaries) ++ u "。"
  end.

(** The [try] body of [summarize_node]: the summary text.  Nothing in it
    raises for these inputs, so the [except] branch is not taken. *)
Definition summary_of (user_question : option pystr) (requested : list (pystr * pystr)) : pystr :=
  match requested with
  | _ :: _ =>
      combine_summaries
        (flat_map (fun '(location, timezone) =>
                     clause location (fallback_get_current_time (u "both") timezone)) requested)
  | [] =>
      match extract_locations user_question with
      | (_ :: _) as locations =>
          join (u "；")
            (flat_map (fun '(location, timezone) =>
                         clause_both location (fallback_get_current_time (u "both") timezone))
                      locations) ++ u "。"
      | [] =>
          let tool_result := fallback_get_current_time (u "both") DEFAULT_TZ in
          match time_of tool_result, date_of tool_result with
          | Some t, Some d => u "当前时间是 " ++ py_str t ++ u "，今天是 " ++ py_str d ++ u "。"
          | Some t, None => u "当前时间是 " ++ py_str t ++ u "。"
          | None, Some d => u "今天是 " ++ py_str d ++ u "。"
          | None, None => u "当前时间信息：" ++ py_str tool_result
          end
      end
  end.

(** [summarize_node] *)
Definition summarize_node (st : TState) : TState :=
  let messages := get_messages st in
  let requested := match st_requested st with Some r => r | None => [] end in
  let summary := summary_of (first_user_question messages) requested in
  mk_state (Some (messages ++ [text_msg Assistant summary])) None (Some (u "end")) (Some summary).

(** [create_time_agent()] run on a state: entry [decide]; its conditional
    edge on [state.get("next", "end")]; [call_tool -> summarize -> END].
    [None]: a [next] value outside the edge map (langgraph raises). *)
Definition run_time_agent (init : TState) : option TState :=
  let s1 := decide_next init in
  let nx := match st_next s1 with Some n => n | None => u "end" end in
  if str_eqb nx (u "call_tool") then Some (summarize_node (call_tool_node s1))
  else if str_eqb nx (u "summarize") then Some (summarize_node s1)
  else if str_eqb nx (u "end") then Some s1
  else None.

(** The router's initial state [{"messages": [user_message], "next": "decide"}]. *)
Definition initial_state (user_input : pystr) : TState :=
  mk_state (Some [text_msg User user_input]) None (Some (u "decide")) None.

End TimeAgent.
End Time.

(* ------------------------------------------------------------------ *)
(** ** General tool-using agent (src/main.py) *)

Module General.
Import Tools.

(** [AgentState]: its annotated keys are the graph's channels; each holds
    the last value written.  A key a node returns that is not one of
    them (["ai_response"]) is not stored. *)
Record AgentState := {
  messages : list Msg;
  user_input : option pystr;
  next : pystr
}.

(** What a node returns. *)
Record Update := {
  up_messages : option (list Msg);
  up_next : option pystr;
  up_ai_response : option pystr
}.

Definition apply_update (st : AgentState) (up : Update) : AgentState :=
  {| messages := match up_messages up with Some ms => ms | None => messages st end;
     user_input := user_input st;
     next := match up_next up with Some n => n | None => next st end |}.

(** A node returns, or an exception escapes it (and [agent.invoke]). *)
Inductive NodeResult :=
| NodeOk (up : Update)
| NodeRaised (err : pystr)
| NodeOutside.      (* a tool result outside the model ([OutsideModel]) *)

(** Outcome of the decision call [client.chat.completions.create(...,
    tools=tools, tool_choice="auto")]: it raises, or returns a message
    with a content (str or None) and its tool calls as
    (function.name, function.arguments) pairs. *)
Inductive DecisionCompletion :=
| DecisionFailed (err : pystr)
| DecisionReturned (content : option pystr) (calls : list (pystr * pystr)).

Definition DIRECT_ANSWER : pystr := u "direct_answer".
Definition TOOL : pystr := u "tool".

Definition content_of (c : option pystr) : Content :=
  match c with Some s => Text s | None => NullContent end.

(** [msg.get('role') == 'user' and msg.get('content') == state.user_input] *)
Definition same_user_message (ui : pystr) (m : Msg) : bool :=
  role_eqb (role m) User &&
  match content m with Text s => str_eqb s ui | _ => false end.

(** The assistant message carrying [serializable_tool_calls], one
    [{"id", "type": "function", "function": {"name", "arguments"}}] per
    call of the response. *)
Definition calls_msg (calls : list (pystr * pystr)) : Msg :=
  {| role := Assistant; content := NoContent;
     tool_calls := Some (map (fun '(n, a) => FnCall n a) calls); mname := None |}.

(** [should_use_tool] with the decision call's outcome [resp].  The
    request (system prompt, non-system history, deduplicated user input,
    tool schemas) only shapes [resp], which is an input here. *)
Definition should_use_tool (st : AgentState) (resp : DecisionCompletion) : NodeResult :=
  let ui := match user_input st with Some s => if truthy s then Some s else None | None => None end in
  match resp with
  | DecisionFailed e =>
      let err := u "抱歉，处理你的请求时出错: " ++ e in
      let updated := messages st
                     ++ (match ui with Some s => [text_msg User s] | None => [] end)
                     ++ [text_msg Assistant err] in
      NodeOk {| up_messages := Some updated; up_next := Some DIRECT_ANSWER;
                up_ai_response := Some err |}
  | DecisionReturned c calls =>
      let updated :=
        match ui with
        | Some s =>
            if existsb (same_user_message s) (messages st) then messages st
            else messages st ++ [text_msg User s]
        | None => messages st
        end in
      match calls with
      | _ :: _ =>
          NodeOk {| up_messages := Some (updated ++ [calls_msg calls]);
                    up_next := Some TOOL; up_ai_response := None |}
      | [] =>
          NodeOk {| up_messages := Some (updated ++ [{| role := Assistant; content := content_of c;
                                                        tool_calls := None; mname := None |}]);
                    up_next := Some DIRECT_ANSWER;
                    up_ai_response := Some (match c with Some s => s | None => [] end) |}
      end
  end.

Section Execute.

(** [json.loads] on the model's argument text ([None]: JSONDecodeError). *)
Variable json_loads : pystr -> option JVal.
(** [json.dumps] *)
Variable json_dumps : JVal -> pystr.

Definition UNKNOWN_TOOL : pystr := u "unknown_tool".

(** The node's result together with the calls it made to
    [handle_tool_call] (tool name and parsed arguments). *)
Record ExecOut := {
  ex_result : NodeResult;
  ex_invocations : list (pystr * JVal)
}.

(** [execute_tool] over the registry [reg]. *)
Definition execute_tool (reg : Registry) (st : AgentState) : ExecOut :=
  let updated := messages st in
  match last_opt updated with
  | None => {| ex_result := NodeRaised (u "list index out of range"); ex_invocations := [] |}
  | Some last_message =>
      match tool_calls last_message with
      | Some (tc :: _) =>
          match tc with
          | FnCall tool_name arguments_str =>
              let arguments := match json_loads arguments_str with
                               | Some a => a
                               | None => JDict []
                               end in
              let inv := [(tool_name, arguments)] in
              match handle_tool_call reg [(u "name", JStr tool_name); (u "arguments", arguments)] with
              | Returned result =>
                  {| ex_result :=
                       NodeOk {| up_messages :=
                                   Some (updated ++ [Time.tool_msg (json_dumps result) (Some tool_name)]);
                                 up_next := None; up_ai_response := None |};
                     ex_invocations := inv |}
              | Raised e =>
                  {| ex_result :=
                       NodeOk {| up_messages :=
                                   Some (updated ++ [Time.tool_msg (json_dumps (err_result e))
                                                                 (Some UNKNOWN_TOOL)]);
                                 up_next := None; up_ai_response := None |};
                     ex_invocations := inv |}
              | OutsideModel => {| ex_result := NodeOutside; ex_invocations := inv |}
              end
          | TimeCall _ _ =>
              (* tool_call["function"] raises KeyError('function') *)
              {| ex_result :=
                   NodeOk {| up_messages :=
                               Some (updated ++ [Time.tool_msg (json_dumps (err_result (u "'function'")))
                                                             (Some UNKNOWN_TOOL)]);
                             up_next := None; up_ai_response := None |};
                 ex_invocations := [] |}
          end
      | _ =>
          {| ex_result := NodeOk {| up_messages := Some updated; up_next := None;
                                    up_ai_response := None |};
             ex_invocations := [] |}
      end
  end.

Definition NO_ANSWER : pystr := u "抱歉，我无法提供回答。".

(** [generate_answer], with [ans] the outcome of the summary call (made
    only when the last message is a tool message; not guarded by a
    [try]). *)
Definition generate_answer (st : AgentState) (ans : Intent.Completion) : NodeResult :=
  match last_opt (messages st) with
  | Some m =>
      match role m with
      | ToolRole =>
          match ans with
          | Intent.CallFailed e => NodeRaised e
          | Intent.CallReturned c =>
              NodeOk {| up_messages := Some (messages st ++ [{| role := Assistant;
                                                                content := content_of c;
                                                                tool_calls := None;
                                                                mname := None |}]);
                        up_next := None; up_ai_response := c |}
          end
      | Assistant =>
          NodeOk {| up_messages := None; up_next := None;
                    up_ai_response := match content m with
                                      | Text s => Some s
                                      | NoContent => Some NO_ANSWER
                                      | NullContent => None
                                      end |}
      | _ => NodeOk {| up_messages := None; up_next := None; up_ai_response := Some NO_ANSWER |}
      end
  | None => NodeOk {| up_messages := None; up_next := None; up_ai_response := Some NO_ANSWER |}
  end.

Inductive Node := NDecision | NTool | NAnswer.

(** A run of the compiled graph: the nodes visited, the final state
    ([None]: an exception escaped, or a result outside the model), and
    the calls made to [handle_tool_call]. *)
Record RunOut := {
  run_trace : list Node;
  run_state : option AgentState;
  run_invocations : list (pystr * JVal)
}.

(** [create_agent_graph()]: entry [decision]; conditional edge on
    [state.next] with map {"tool": tool, "direct_answer": answer};
    [tool -> answer]; [answer] has no outgoing edge (END). *)
Definition run_general (reg : Registry) (st0 : AgentState) (dec : DecisionCompletion)
    (ans : Intent.Completion) : RunOut :=
  let answer (s : AgentState) : option AgentState :=
    match generate_answer s ans with
    | NodeOk up => Some (apply_update s up)
    | _ => None
    end in
  match should_use_tool st0 dec with
  | NodeOk up1 =>
      let s1 := apply_update st0 up1 in
      if str_eqb (next s1) TOOL then
        let ex := execute_tool reg s1 in
        match ex_result ex with
        | NodeOk up2 =>
            {| run_trace := [NDecision; NTool; NAnswer];
               run_state := answer (apply_update s1 up2);
               run_invocations := ex_invocations ex |}
        | _ => {| run_trace := [NDecision; NTool]; run_state := None;
                  run_invocations := ex_invocations ex |}
        end
      else if str_eqb (next s1) DIRECT_ANSWER then
        {| run_trace := [NDecision; NAnswer]; run_state := answer s1; run_invocations := [] |}
      else {| run_trace := [NDecision]; run_state := None; run_invocations := [] |}
  | _ => {| run_trace := [NDecision]; run_state := None; run_invocations := [] |}
  end.

End Execute.
End General.

(* ------------------------------------------------------------------ *)
(** ** Tool schemas and endpoint URLs (src/tools/__init__.py) *)

Module ToolsExtra.

(** Truthiness of a Python value. *)
Definition jtruthy (v : JVal) : bool :=
  match v with
  | JNone => false
  | JBool b => b
  | JInt z => negb (z =? 0)
  | JFloat q => negb (Qeq_bool q 0)
  | JStr s => truthy s
  | JList l => match l with [] => false | _ => true end
  | JDict kv => match kv with [] => false | _ => true end
  end.

(** [[k for k, v in self.parameters.items() if v.get("required", False)]]:
    [v.get] raises AttributeError on the first spec that is not a dict. *)
Fixpoint required_of (parameters : list (pystr * JVal)) : list pystr + pystr :=
  match parameters with
  | [] => inl []
  | (k, v) :: r =>
      match v with
      | JDict d =>
          let req := match dget (u "required") d with Some x => jtruthy x | None => false end in
          match required_of r with
          | inl ks => inl (if req then k :: ks else ks)
          | inr e => inr e
          end
      | _ => inr (no_attr v (u "get"))
      end
  end.

(** [ExternalTool.to_function_schema] *)
Definition to_function_schema (name description : pystr) (parameters : list (pystr * JVal))
  : JVal + pystr :=
  match required_of parameters with
  | inl required =>
      inl (JDict [(u "name", JStr name); (u "description", JStr description);
                  (u "parameters", JDict [(u "type", JStr (u "object"));
                                          (u "properties", JDict parameters);
                                          (u "required", JList (map JStr required))])])
  | inr e => inr e
  end.

(** [s.lstrip(c)] for one character [c]. *)
Fixpoint lstrip_ch (c : Z) (s : pystr) : pystr :=
  match s with
  | x :: r => if x =? c then lstrip_ch c r else s
  | [] => []
  end.

(** [s.rstrip(c)] for one character [c]. *)
Definition rstrip_ch (c : Z) (s : pystr) : pystr := rev (lstrip_ch c (rev s)).

(** The URL of [ExternalTool.call]:
    [f"{self.base_url.rstrip('/')}/{endpoint.lstrip('/')}"]. *)
Definition call_url (base_url endpoint : pystr) : pystr :=
  rstrip_ch 47 base_url ++ [47] ++ lstrip_ch 47 endpoint.

End ToolsExtra.

(* ------------------------------------------------------------------ *)
(** ** [IntentAgent.is_time_related] (src/agents/intent_agent.py) *)

Module IntentExtra.
Import Intent.

(** [self.recognize_intent(user_input) == IntentType.TIME_RELATED], with
    [c] the classification call. *)
Definition is_time_related (c : Completion) : bool :=
  str_eqb (recognize_intent c) TIME_RELATED.

End IntentExtra.

(* ------------------------------------------------------------------ *)
(** ** Console output (src/main.py: [typewriter_print], and the reply
    [run_agent] shows for a time-agent result) *)

Module Console.
Import Time.

(** What [typewriter_print] does, in order: a [print] of a str (with
    [end=""]; a bare [print()] writes "\n"), or [time.sleep(delay * k)]. *)
Inductive Effect :=
| Emit (s : pystr)
| Sleep (k : Z).

(** [s.split(c)] for one character [c]. *)
Fixpoint split_on (c : Z) (s : pystr) : list pystr :=
  match s with
  | [] => [[]]
  | x :: r =>
      if x =? c then [] :: split_on c r
      else match split_on c r with
           | p :: ps => (x :: p) :: ps
           | [] => [[x]]
           end
  end.

(** The delay factor of one character. *)
Definition char_weight (ch : Z) : Z :=
  if str_mem [ch] (map u [","; "，"; ";"; "；"; ":"; "："]%string) then 2
  else if str_mem [ch] (map u ["."; "。"; "!"; "！"; "?"; "？"]%string) then 3
  else 1.

(** [for char in paragraph: print(char, ...); time.sleep(...)] *)
Definition paragraph_effects (p : pystr) : list Effect :=
  flat_map (fun ch => [Emit [ch]; Sleep (char_weight ch)]) p.

(** The paragraph loop, with a [print()] after every paragraph but the last. *)
Fixpoint paragraphs_effects (ps : list pystr) : list Effect :=
  match ps with
  | [] => []
  | [p] => paragraph_effects p
  | p :: r => paragraph_effects p ++ [Emit [10]] ++ paragraphs_effects r
  end.

(** [typewriter_print(text, delay, prefix)] *)
Definition typewriter_print (text prefix : pystr) : list Effect :=
  [Emit ([10] ++ prefix)] ++ paragraphs_effects (split_on 10 text) ++ [Emit [10]].

(** The text written to the terminal. *)
Fixpoint printed (es : list Effect) : pystr :=
  match es with
  | [] => []
  | Emit s :: r => s ++ printed r
  | Sleep _ :: r => printed r
  end.

(** The delay factors of the [time.sleep] calls. *)
Fixpoint sleeps (es : list Effect) : list Z :=
  match es with
  | [] => []
  | Emit _ :: r => sleeps r
  | Sleep k :: r => k :: sleeps r
  end.

Definition NO_TIME_ANSWER : pystr := u "抱歉，我无法提供时间回答。".

(** [msg.get('role') == 'assistant' and 'content' in msg] *)
Definition assistant_with_content (m : Msg) : bool :=
  role_eqb (role m) Assistant && match content m with NoContent => false | _ => true end.

(** The argument [run_agent] passes to [typewriter_print] for the dict
    [result] returned by the time agent: its "ai_response" if present,
    else the content of the last assistant message having a "content" key
    ([None]: Python's None), else the fallback text. *)
Definition time_reply (result : TState) : option pystr :=
  match st_ai_response result with
  | Some r => Some r
  | None =>
      match st_messages result with
      | Some ms =>
          match find assistant_with_content (rev ms) with
          | Some m => match content m with Text s => Some s | _ => None end
          | None => Some NO_TIME_ANSWER
          end
      | None => Some NO_TIME_ANSWER
      end
  end.

End Console.

(* ================================================================== *)
(** * Properties *)

Module StrFacts.

Lemma str_eqb_eq : forall a b, str_eqb a b = true <-> a = b.
Proof.
  induction a as [|x a IH]; destruct b as [|y b]; simpl; split; intro H;
    try discriminate; try reflexivity.
  - apply andb_prop in H as [H1 H2]. apply Z.eqb_eq in H1. apply IH in H2. subst. reflexivity.
  - injection H as -> ->. rewrite Z.eqb_refl. simpl. apply IH. reflexivity.
Qed.

Lemma str_eqb_refl : forall a, str_eqb a a = true.
Proof. intro a. apply str_eqb_eq. reflexivity. Qed.

Lemma str_mem_In : forall x l, str_mem x l = true <-> In x l.
Proof.
  intros x l. induction l as [|y l IH]; simpl.
  - split; [discriminate | contradiction].
  - rewrite orb_true_iff, IH, str_eqb_eq. split; intros [H|H]; auto.
Qed.

End StrFacts.
Import StrFacts.

Module IntentFacts.
Import Intent Router.

Ltac str_neq := let H := fresh in intro H; vm_compute in H; discriminate H.

(** Claim C5 (corrected).  [recognize_intent] is total and returns one of
    the four IntentType values; the model's content is stripped of
    surrounding whitespace and then compared exactly with the three
    Chinese labels 时间相关, 非时间相关 and 无法判断, being returned when
    it equals one of them; any other stripped content, a None content
    or a failing call gives 未知 (UNKNOWN). *)
Theorem recognize_intent_total_and_exact :
  forall c : Completion,
    In (recognize_intent c) [TIME_RELATED; NON_TIME_RELATED; CANNOT_DETERMINE; UNKNOWN] /\
    (recognize_intent c = UNKNOWN \/
     exists s, c = CallReturned (Some s) /\ recognize_intent c = strip s /\
               In (strip s) [TIME_RELATED; NON_TIME_RELATED; CANNOT_DETERMINE]) /\
    (forall s, c = CallReturned (Some s) ->
       In (strip s) [TIME_RELATED; NON_TIME_RELATED; CANNOT_DETERMINE] ->
       recognize_intent c = strip s) /\
    (forall s, c = CallReturned (Some s) ->
       ~ In (strip s) [TIME_RELATED; NON_TIME_RELATED; CANNOT_DETERMINE] ->
       recognize_intent c = UNKNOWN) /\
    (c = CallReturned None \/ (exists e, c = CallFailed e) -> recognize_intent c = UNKNOWN).
Proof.
  intros c. destruct c as [e|[s|]]; unfold recognize_intent; cbv zeta.
  - repeat split; try (right; right; right; left; reflexivity); try left; try reflexivity;
      intros; discriminate.
  - set (L := [TIME_RELATED; NON_TIME_RELATED; CANNOT_DETERMINE]).
    destruct (str_mem (strip s) L) eqn:E.
    + apply str_mem_In in E.
      repeat split.
      * unfold L in E. simpl. simpl in E. tauto.
      * right. exists s. split; [reflexivity|]. split; [reflexivity|]. exact E.
      * intros s' Hs' _. injection Hs' as <-. reflexivity.
      * intros s' Hs' Hn. injection Hs' as <-. contradiction.
      * intros [H|[e H]]; discriminate.
    + assert (Hn : ~ In (strip s) L)
        by (rewrite <- str_mem_In; rewrite E; discriminate).
      split; [right; right; right; left; reflexivity|].
      split; [left; reflexivity|].
      split; [intros s' Hs' Hin; injection Hs' as <-; contradiction|].
      split; [intros; reflexivity|].
      intros [H|[e H]]; discriminate.
  - repeat split; try (right; right; right; left; reflexivity); try left; try reflexivity;
      intros; discriminate.
Qed.

(** Claim C5, counterexample: content with surrounding whitespace is not
    "other content": " 时间相关" is classified TIME_RELATED; and the
    English label "time-related" is not one the code accepts (it gives
    UNKNOWN). *)
Lemma recognize_intent_strips_and_uses_chinese_labels :
  recognize_intent (CallReturned (Some (u " 时间相关"))) = TIME_RELATED /\
  TIME_RELATED <> UNKNOWN /\
  recognize_intent (CallReturned (Some (u "time-related"))) = UNKNOWN.
Proof. split; [vm_compute; reflexivity | split; [str_neq | vm_compute; reflexivity]]. Qed.

(** Instance of claim C5: " 时间相关" is stripped and accepted. *)
Lemma recognize_intent_total_and_exact_witness :
  In (strip (u " 时间相关")) [TIME_RELATED; NON_TIME_RELATED; CANNOT_DETERMINE] /\
  recognize_intent (CallReturned (Some (u " 时间相关"))) = strip (u " 时间相关").
Proof.
  assert (H : In (strip (u " 时间相关")) [TIME_RELATED; NON_TIME_RELATED; CANNOT_DETERMINE])
    by (rewrite <- str_mem_In; vm_compute; reflexivity).
  split; [exact H|].
  exact (proj1 (proj2 (proj2 (recognize_intent_total_and_exact
                                (CallReturned (Some (u " 时间相关")))))) _ eq_refl H).
Defined.

Lemma ambiguous_not_time :
  forall i, i = CANNOT_DETERMINE \/ i = UNKNOWN -> str_eqb i TIME_RELATED = false.
Proof. intros i [-> | ->]; vm_compute; reflexivity. Qed.

Lemma process_intent_fst : forall c1 c2, fst (process_intent c1 c2) = recognize_intent c1.
Proof.
  intros c1 c2. unfold process_intent.
  destruct (_ || _); reflexivity.
Qed.

(** Claim C1 (code bug).  [process_intent] returns a clarification
    question exactly when the intent is CANNOT_DETERMINE or UNKNOWN.  On
    such a turn the router emits the question and invokes neither agent
    when the question is a non-empty string; an empty question (the model
    answered only whitespace) is falsy, and the router then dispatches to
    the General Agent. *)
Theorem process_intent_clarification_routing :
  forall c1 c2,
    let '(intent, cq) := process_intent c1 c2 in
    (cq <> None <-> intent = CANNOT_DETERMINE \/ intent = UNKNOWN) /\
    (forall q, cq = Some q -> q <> [] -> route_turn c1 c2 = EmitClarification q) /\
    (forall q, cq = Some q -> q = [] -> route_turn c1 c2 = InvokeGeneralAgent).
Proof.
  intros c1 c2.
  unfold route_turn.
  destruct (process_intent c1 c2) as [intent cq] eqn:P.
  pose proof P as P'. unfold process_intent in P'.
  destruct (str_eqb (recognize_intent c1) CANNOT_DETERMINE
            || str_eqb (recognize_intent c1) UNKNOWN) eqn:E;
    injection P' as <- <-.
  - apply orb_true_iff in E.
    assert (Hamb : recognize_intent c1 = CANNOT_DETERMINE \/ recognize_intent c1 = UNKNOWN)
      by (destruct E as [E|E]; apply str_eqb_eq in E; auto).
    split; [split; [intros _; exact Hamb | discriminate] |].
    split.
    + intros q Hq Hne. injection Hq as <-.
      destruct (generate_clarification_question c2) as [|x r]; [contradiction | reflexivity].
    + intros q Hq He. injection Hq as <-. rewrite He. simpl.
      rewrite (ambiguous_not_time _ Hamb). reflexivity.
  - apply orb_false_iff in E as [E1 E2].
    split; [split; [intro H; contradiction H; reflexivity | ] | split; intros q Hq; discriminate].
    intros [H|H]; [rewrite H, str_eqb_refl in E1 | rewrite H, str_eqb_refl in E2]; discriminate.
Qed.

(** Instance of claim C1: the classifier cannot decide and the
    clarification call returns a question, which the router emits. *)
Lemma process_intent_clarification_routing_witness :
  route_turn (CallReturned (Some CANNOT_DETERMINE)) (CallReturned (Some (u "您是想问时间吗？")))
  = EmitClarification (u "您是想问时间吗？").
Proof.
  pose proof (process_intent_clarification_routing (CallReturned (Some CANNOT_DETERMINE))
                (CallReturned (Some (u "您是想问时间吗？")))) as T.
  assert (P : process_intent (CallReturned (Some CANNOT_DETERMINE))
                (CallReturned (Some (u "您是想问时间吗？")))
              = (CANNOT_DETERMINE, Some (u "您是想问时间吗？"))) by (vm_compute; reflexivity).
  rewrite P in T. destruct T as [_ [T _]].
  apply T; [reflexivity | discriminate].
Defined.

(** Claim C1, failing input: the classifier answers 无法判断 and the
    clarification call returns only whitespace; the clarification is
    present but empty, and the router's truthiness test sends the turn to
    the General Agent instead of asking the user. *)
Lemma empty_clarification_goes_to_general_agent :
  process_intent (CallReturned (Some CANNOT_DETERMINE)) (CallReturned (Some (u "  ")))
    = (CANNOT_DETERMINE, Some []) /\
  route_turn (CallReturned (Some CANNOT_DETERMINE)) (CallReturned (Some (u "  ")))
    = InvokeGeneralAgent.
Proof. split; vm_compute; reflexivity. Qed.

End IntentFacts.


Module CalcFacts.
Import PyEval Tools.

Lemma contains_single : forall c l, contains [c] l = true <-> In c l.
Proof.
  intros c l. induction l as [|y l IH]; simpl.
  - split; [discriminate | contradiction].
  - rewrite orb_true_iff, IH, andb_true_r, Z.eqb_eq. split; intros [H|H]; auto.
Qed.

Lemma check_chars_first_disallowed :
  forall s, (exists c, In c s /\ ~ In c ALLOWED_CHARS) ->
  exists c, In c s /\ ~ In c ALLOWED_CHARS /\
            check_chars (map (fun c => JStr [c]) s) = Disallowed [c].
Proof.
  induction s as [|x s IH]; intros [c [Hin Hn]]; [contradiction|].
  cbn [map check_chars]. destruct (contains [x] ALLOWED_CHARS) eqn:E.
  - apply contains_single in E.
    destruct Hin as [<-|Hin]; [contradiction|].
    destruct (IH (ex_intro _ c (conj Hin Hn))) as [c' [H1 [H2 H3]]].
    exists c'. split; [right; exact H1|]. split; [exact H2|]. exact H3.
  - exists x. split; [left; reflexivity|]. split; [|reflexivity].
    rewrite <- contains_single, E. discriminate.
Qed.

(** Claim C9.  Whatever the evaluator, an expression containing a
    character outside [0-9 + - * / ( ) .] and space is answered with the
    structured failure 不允许的字符: <c> naming its first such character,
    without the evaluator being consulted; and on the concrete inputs
    "2+3*4" succeeds with result 14, "2+DROP" is rejected at 'D', and
    "1/0" fails with an error mentioning division. *)
Theorem calculator_allow_list_and_examples :
  (forall (ev : pystr -> EvalResult) (kv : list (pystr * JVal)) (s : pystr),
     dget (u "expression") kv = Some (JStr s) ->
     (exists c, In c s /\ ~ In c ALLOWED_CHARS) ->
     exists c, In c s /\ ~ In c ALLOWED_CHARS /\
       calculator_call_with ev (JDict kv) = Returned (err_result (u "不允许的字符: " ++ [c]))) /\
  calculator_call (JDict [(u "expression", JStr (u "2+3*4"))])
    = Returned (ok_result (JDict [(u "expression", JStr (u "2+3*4")); (u "result", JInt 14)])) /\
  calculator_call (JDict [(u "expression", JStr (u "2+DROP"))])
    = Returned (err_result (u "不允许的字符: D")) /\
  (exists msg, calculator_call (JDict [(u "expression", JStr (u "1/0"))])
                 = Returned (err_result msg) /\ contains (u "division") msg = true).
Proof.
  split; [|split; [vm_compute; reflexivity | split; [vm_compute; reflexivity|]]].
  - intros ev kv s Hget Hex.
    destruct (check_chars_first_disallowed s Hex) as [c [H1 [H2 H3]]].
    exists c. split; [exact H1|]. split; [exact H2|].
    unfold calculator_call_with, pget. rewrite Hget. simpl. rewrite H3. reflexivity.
  - eexists. split; [vm_compute; reflexivity | vm_compute; reflexivity].
Qed.

(** Instance of claim C9 on the expression "2+DROP" with Python's [eval]. *)
Lemma calculator_allow_list_and_examples_witness :
  dget (u "expression") [(u "expression", JStr (u "2+DROP"))] = Some (JStr (u "2+DROP")) /\
  (exists c, In c (u "2+DROP") /\ ~ In c ALLOWED_CHARS) /\
  exists c, In c (u "2+DROP") /\ ~ In c ALLOWED_CHARS /\
    calculator_call_with py_eval (JDict [(u "expression", JStr (u "2+DROP"))])
      = Returned (err_result (u "不允许的字符: " ++ [c])).
Proof.
  assert (Hget : dget (u "expression") [(u "expression", JStr (u "2+DROP"))]
                 = Some (JStr (u "2+DROP"))) by (vm_compute; reflexivity).
  assert (Hex : exists c, In c (u "2+DROP") /\ ~ In c ALLOWED_CHARS).
  { exists 68. split.
    - vm_compute. right; right; left; reflexivity.
    - rewrite <- contains_single. vm_compute. discriminate. }
  split; [exact Hget|]. split; [exact Hex|].
  exact (proj1 calculator_allow_list_and_examples py_eval _ _ Hget Hex).
Defined.

End CalcFacts.

Module TimeToolFacts.
Import Time.

(** Claim C10.  For every timezone string and format, [get_current_time]
    returns a dict (no exception escapes); for a timezone outside
    [pytz.all_timezones] the dict has an "error" key and none of the time
    fields; for a valid timezone and format "both" it has both "time" and
    "date". *)
Theorem get_current_time_result_shape :
  forall (all_timezones : list pystr) (clock : pystr -> DateTime) (tz : pystr)
         (format : option pystr),
  exists kv, get_current_time all_timezones clock tz format = JDict kv /\
    (~ In tz all_timezones ->
       has_key (u "error") kv = true /\
       (forall k, In k time_field_keys -> has_key k kv = false)) /\
    (In tz all_timezones -> format = Some (u "both") ->
       has_key (u "time") kv = true /\ has_key (u "date") kv = true).
Proof.
  intros all clock tz format. unfold get_current_time.
  destruct (str_mem tz all) eqn:E; simpl.
  - eexists. split; [reflexivity|]. split.
    + intro Hn. apply str_mem_In in E. contradiction.
    + intros _ ->. split; vm_compute; reflexivity.
  - eexists. split; [reflexivity|]. split.
    + intros _. split; [vm_compute; reflexivity|].
      intros k Hk. unfold time_field_keys in Hk. simpl in Hk.
      repeat (destruct Hk as [<-|Hk]; [vm_compute; reflexivity|]). contradiction.
    + intros Hin. apply str_mem_In in Hin. rewrite Hin in E. discriminate.
Qed.

(** Instance of claim C10: an invalid name, with pytz's list cut to one zone. *)
Lemma get_current_time_result_shape_witness :
  ~ In (u "Mars/Olympus") [u "Asia/Shanghai"] /\
  exists kv,
    get_current_time [u "Asia/Shanghai"] (fun _ => {| year := 2026; month := 10; day := 19;
        hour := 9; minute := 5; second := 7; microsecond := 0; weekday := 0;
        utcoffset_min := 480; tzname := u "CST" |}) (u "Mars/Olympus") (Some (u "both"))
      = JDict kv /\ has_key (u "error") kv = true.
Proof.
  assert (Hn : ~ In (u "Mars/Olympus") [u "Asia/Shanghai"]).
  { rewrite <- str_mem_In. vm_compute. discriminate. }
  split; [exact Hn|].
  destruct (get_current_time_result_shape [u "Asia/Shanghai"] (fun _ => {| year := 2026; month := 10; day := 19;
        hour := 9; minute := 5; second := 7; microsecond := 0; weekday := 0;
        utcoffset_min := 480; tzname := u "CST" |}) (u "Mars/Olympus") (Some (u "both")))
    as [kv [Heq [Hinv _]]].
  exists kv. split; [exact Heq | exact (proj1 (Hinv Hn))].
Defined.

End TimeToolFacts.

Module TimeAgentFacts.
Import Time.

(** Replaces each comparison of two string literals by its value. *)
Ltac eval_lit_eqbs :=
  repeat match goal with
  | |- context [str_eqb (u ?a) (u ?b)] =>
      let v := eval vm_compute in (str_eqb (u a) (u b)) in
      let E := fresh in
      assert (E : str_eqb (u a) (u b) = v) by (vm_compute; reflexivity);
      rewrite E; clear E; cbv iota beta
  end.

Lemma last_opt_app : forall {A} (l : list A) x, last_opt (l ++ [x]) = Some x.
Proof.
  intros A l x. induction l as [|y l IH]; [reflexivity|].
  simpl. rewrite IH. destruct (l ++ [x]) eqn:E; [destruct l; discriminate | reflexivity].
Qed.

Lemma role_eqb_false : forall a b, a <> b -> role_eqb a b = false.
Proof. intros [] [] H; try reflexivity; contradiction H; reflexivity. Qed.

Lemma role_eqb_true : forall a b, role_eqb a b = true -> a = b.
Proof. intros [] [] H; try reflexivity; discriminate. Qed.

Lemma extract_go_incl : forall q kws acc x,
  In x (extract_go q kws acc) -> In x acc \/ In x (map snd kws).
Proof.
  intros q kws. induction kws as [|[k c] kws IH]; intros acc x H; simpl in *; [auto|].
  apply IH in H as [H|H]; [|auto].
  destruct (contains k q && negb (str_mem c acc)); [|auto].
  apply in_app_or in H as [H|[H|[]]]; auto.
Qed.

Lemma city_keywords_mapped :
  forallb (fun x => match dget x timezone_mapping with Some _ => true | None => false end)
          (map snd city_keywords) = true.
Proof. vm_compute. reflexivity. Qed.

Lemma extract_in_mapping : forall q l,
  In l (extract_locations_from_question q) -> dget l timezone_mapping <> None.
Proof.
  intros q l H. apply extract_go_incl in H as [[]|H].
  pose proof (proj1 (forallb_forall _ _) city_keywords_mapped l H) as Hl.
  destruct (dget l timezone_mapping) eqn:E; [discriminate|]. cbv beta in Hl. rewrite E in Hl. discriminate Hl.
Qed.

(** The outcome of the [decide] node. *)
Lemma decide_next_cases : forall init,
  let s1 := decide_next init in
  (st_next s1 = Some (u "summarize") /\ get_messages s1 = get_messages init /\ st_requested s1 = None) \/
  (st_next s1 = Some (u "end") /\ st_requested s1 = None /\
   exists s, get_messages s1 = get_messages init ++ [text_msg Assistant s] /\
             (s = REFUSAL \/ s = u "处理请求时出错: " ++ NONE_NOT_ITERABLE)) \/
  (st_next s1 = Some (u "call_tool") /\
   exists tcs, get_messages s1 = get_messages init ++ [tool_request_msg tcs]).
Proof.
  intros init s1. subst s1. unfold decide_next.
  assert (Hb : forall ms, ms = get_messages init ->
    let s1 := decide_body ms in
    (st_next s1 = Some (u "end") /\ st_requested s1 = None /\
     exists s, get_messages s1 = get_messages init ++ [text_msg Assistant s] /\
               (s = REFUSAL \/ s = u "处理请求时出错: " ++ NONE_NOT_ITERABLE)) \/
    (st_next s1 = Some (u "call_tool") /\
     exists tcs, get_messages s1 = get_messages init ++ [tool_request_msg tcs])).
  { intros ms -> s1. subst s1. unfold decide_body.
    destruct (first_user_question (get_messages init)) as [q|].
    - destruct (is_time_related q).
      + right. split; [reflexivity|]. eexists. reflexivity.
      + left. split; [reflexivity|]. split; [reflexivity|]. eexists.
        split; [reflexivity | left; reflexivity].
    - left. split; [reflexivity|]. split; [reflexivity|]. eexists.
      split; [reflexivity | right; reflexivity]. }
  destruct (last_opt (get_messages init)) as [m|].
  - destruct (role_eqb (role m) ToolRole).
    + left. split; [reflexivity|]. split; reflexivity.
    + right. apply Hb. reflexivity.
  - right. apply Hb. reflexivity.
Qed.

Lemma get_messages_summarize : forall all clock s,
  get_messages (summarize_node all clock s)
  = get_messages s ++ [text_msg Assistant
      (summary_of all clock (first_user_question (get_messages s))
                  (match st_requested s with Some r => r | None => [] end))].
Proof. reflexivity. Qed.

Lemma call_tool_after_request : forall all clock json_dumps s1 ms tcs,
  get_messages s1 = ms ++ [tool_request_msg tcs] ->
  let s2 := call_tool_node all clock json_dumps s1 in
  get_messages s2 = ms ++ [tool_request_msg tcs] ++ map (call_one all clock json_dumps) tcs /\
  st_requested s2 = None.
Proof.
  intros all clock json_dumps s1 ms tcs H s2. subst s2. unfold call_tool_node.
  cbv zeta. rewrite H, last_opt_app.
  change (role (tool_request_msg tcs)) with Assistant.
  change (tool_calls (tool_request_msg tcs)) with (Some tcs). cbv iota beta.
  change (get_messages (mk_state (Some ?x) _ _ _)) with x.
  rewrite <- app_assoc. split; reflexivity.
Qed.

Lemma call_one_role : forall all clock json_dumps tc,
  role (call_one all clock json_dumps tc) = ToolRole.
Proof.
  intros all clock json_dumps [name args|name a]; [|reflexivity].
  unfold call_one. destruct (str_eqb name TIME_TOOL_NAME); [|reflexivity].
  destruct (call_time_tool all clock args); reflexivity.
Qed.

(** Claim C2.  Every run of the time sub-agent graph terminates in a state
    whose conversation is the input conversation followed by some messages
    none of which is an assistant message with content (the tool-call
    request and tool results), and then exactly one trailing assistant
    message: the refusal, the error text of the [except] branch, or a
    time summary. *)
Theorem time_agent_single_final_answer :
  forall (all_timezones : list pystr) (clock : pystr -> DateTime)
         (json_dumps : JVal -> pystr) (init : TState),
  exists st', run_time_agent all_timezones clock json_dumps init = Some st' /\
  exists mid s,
    get_messages st' = get_messages init ++ mid ++ [text_msg Assistant s] /\
    Forall (fun m => role m <> Assistant \/ content m = NoContent) mid /\
    (s = REFUSAL \/ s = u "处理请求时出错: " ++ NONE_NOT_ITERABLE \/
     exists uq, s = summary_of all_timezones clock uq []).
Proof.
  intros all clock jd init. unfold run_time_agent.
  pose proof (decide_next_cases init) as D. cbv zeta in D.
  destruct D as [[Hn [Hm Hr]]|[[Hn [Hr [s [Hm Hs]]]]|[Hn [tcs Hm]]]];
    rewrite Hn; cbv iota; eval_lit_eqbs.
  - eexists. split; [reflexivity|]. exists [].
    eexists. rewrite get_messages_summarize, Hm, Hr. split; [reflexivity|].
    split; [constructor|]. right; right. eexists. reflexivity.
  - eexists. split; [reflexivity|]. exists [], s. rewrite Hm.
    split; [reflexivity|]. split; [constructor|]. destruct Hs as [Hs|Hs]; [left | right; left]; exact Hs.
  - eexists. split; [reflexivity|].
    destruct (call_tool_after_request all clock jd _ _ _ Hm) as [Hm2 Hr2].
    exists ([tool_request_msg tcs] ++ map (call_one all clock jd) tcs).
    eexists. rewrite get_messages_summarize, Hm2, Hr2.
    split; [rewrite <- !app_assoc; reflexivity|].
    split.
    + apply Forall_app. split; [constructor; [right; reflexivity | constructor]|].
      apply Forall_forall. intros m Hin. apply in_map_iff in Hin as [tc [<- _]].
      left. rewrite call_one_role. discriminate.
    + right; right. eexists. reflexivity.
Qed.

(** The [decide] node on a conversation whose first user message is a
    time question and whose last message is not a tool result. *)
Lemma decide_time_question : forall init q,
  first_user_question (get_messages init) = Some q ->
  (forall m, last_opt (get_messages init) = Some m -> role m <> ToolRole) ->
  is_time_related q = true ->
  let lt := locations_and_timezones_of (extract_locations_from_question q) in
  decide_next init =
  mk_state (Some (get_messages init ++ [tool_request_msg (map time_request lt)]))
           (Some lt) (Some (u "call_tool")) None.
Proof.
  intros init q Hq Hl Ht lt. unfold decide_next.
  destruct (last_opt (get_messages init)) as [m|] eqn:L.
  - rewrite (role_eqb_false _ _ (Hl m eq_refl)).
    unfold decide_body. rewrite Hq, Ht. reflexivity.
  - unfold decide_body. rewrite Hq, Ht. reflexivity.
Qed.

(** A run whose [decide] node requests tools goes through [call_tool] and
    [summarize]. *)
Lemma run_after_request : forall all clock json_dumps init ms lt,
  decide_next init = mk_state (Some ms) (Some lt) (Some (u "call_tool")) None ->
  run_time_agent all clock json_dumps init
  = Some (summarize_node all clock
            (call_tool_node all clock json_dumps (mk_state (Some ms) (Some lt) (Some (u "call_tool")) None))).
Proof.
  intros all clock json_dumps init ms lt H. unfold run_time_agent. rewrite H.
  change (st_next (mk_state _ _ ?n _)) with n. cbv iota. eval_lit_eqbs. reflexivity.
Qed.

(** Claim C4.  When the first user message is a time question in which no
    extracted city has a timezone mapping (in particular when no city is
    named) and the conversation does not end in a tool result, the run
    issues exactly one tool-call request, [get_current_time] with format
    "both" and timezone Asia/Shanghai for the default location, followed
    by its single tool result and the final assistant message. *)
Theorem time_question_without_city_uses_shanghai :
  forall (all_timezones : list pystr) (clock : pystr -> DateTime)
         (json_dumps : JVal -> pystr) (init : TState) (q : pystr),
  first_user_question (get_messages init) = Some q ->
  (forall m, last_opt (get_messages init) = Some m -> role m <> ToolRole) ->
  is_time_related q = true ->
  Forall (fun l => dget l timezone_mapping = None) (extract_locations_from_question q) ->
  exists st' s,
    run_time_agent all_timezones clock json_dumps init = Some st' /\
    get_messages st' = get_messages init ++
      [tool_request_msg [time_request (DEFAULT_LOC, u "Asia/Shanghai")];
       call_one all_timezones clock json_dumps (time_request (DEFAULT_LOC, u "Asia/Shanghai"));
       text_msg Assistant s].
Proof.
  intros all clock jd init q Hq Hl Ht Hf.
  assert (He : extract_locations_from_question q = []).
  { destruct (extract_locations_from_question q) as [|l ls] eqn:E; [reflexivity|].
    exfalso. inversion Hf as [|x xs Hx _]; subst.
    apply (extract_in_mapping q l); [rewrite E; left; reflexivity | exact Hx]. }
  pose proof (decide_time_question init q Hq Hl Ht) as D. cbv zeta in D.
  rewrite He in D.
  rewrite (run_after_request all clock jd init _ _ D).
  do 2 eexists. split; [reflexivity|].
  rewrite get_messages_summarize.
  destruct (call_tool_after_request all clock jd
              (mk_state (Some (get_messages init ++
                 [tool_request_msg (map time_request (locations_and_timezones_of []))]))
                 (Some (locations_and_timezones_of [])) (Some (u "call_tool")) None)
              (get_messages init) _ eq_refl) as [Hm Hr].
  rewrite Hm, Hr. rewrite <- !app_assoc. reflexivity.
Qed.

Lemma extract_go_filter : forall q kws acc,
  (forall k c, In (k, c) kws -> k = c) ->
  NoDup (map snd kws) ->
  (forall c, In c (map snd kws) -> ~ In c acc) ->
  extract_go q kws acc = acc ++ filter (fun c => contains c q) (map snd kws).
Proof.
  intros q kws. induction kws as [|[k c] kws IH]; intros acc Hkc Hnd Hdis.
  - simpl. rewrite app_nil_r. reflexivity.
  - pose proof (Hkc k c (or_introl eq_refl)) as ->.
    simpl in Hnd. inversion Hnd as [|x xs Hc Hnd']; subst.
    assert (Hm : str_mem c acc = false).
    { destruct (str_mem c acc) eqn:E; [|reflexivity].
      apply str_mem_In in E. exfalso. apply (Hdis c); [left; reflexivity | exact E]. }
    cbn [extract_go map snd filter]. rewrite Hm, andb_true_r.
    destruct (contains c q).
    + rewrite IH.
      * rewrite <- app_assoc. reflexivity.
      * intros k' c' H. apply (Hkc k' c'). right. exact H.
      * exact Hnd'.
      * intros c' Hc' Hin. apply in_app_or in Hin as [Hin|[<-|[]]].
        -- apply (Hdis c'); [right; exact Hc' | exact Hin].
        -- contradiction.
    + apply IH.
      * intros k' c' H. apply (Hkc k' c'). right. exact H.
      * exact Hnd'.
      * intros c' Hc'. apply Hdis. right. exact Hc'.
Qed.

Lemma city_keywords_self : forall k c, In (k, c) city_keywords -> k = c.
Proof.
  intros k c H. unfold city_keywords in H. apply in_map_iff in H as [s [Hs _]].
  injection Hs as <- <-. reflexivity.
Qed.

Lemma city_keywords_nodup : NoDup (map snd city_keywords).
Proof.
  vm_compute.
  repeat (constructor; [intro H; repeat (destruct H as [H|H]; [discriminate H|]); exact H|]).
  constructor.
Qed.





(** Instance of claim C4 on the question "现在几点" (no city). *)
Lemma time_question_without_city_uses_shanghai_witness :
  exists st' s,
    run_time_agent [u "Asia/Shanghai"]
      (fun _ => {| year := 2026; month := 10; day := 19; hour := 9; minute := 5; second := 7;
                   microsecond := 0; weekday := 0; utcoffset_min := 480; tzname := u "CST" |})
      (fun _ => []) (initial_state (u "现在几点")) = Some st' /\
    get_messages st' = get_messages (initial_state (u "现在几点")) ++
      [tool_request_msg [time_request (DEFAULT_LOC, u "Asia/Shanghai")];
       call_one [u "Asia/Shanghai"]
         (fun _ => {| year := 2026; month := 10; day := 19; hour := 9; minute := 5; second := 7;
                      microsecond := 0; weekday := 0; utcoffset_min := 480; tzname := u "CST" |})
         (fun _ => []) (time_request (DEFAULT_LOC, u "Asia/Shanghai"));
       text_msg Assistant s].
Proof.
  apply (time_question_without_city_uses_shanghai _ _ _ _ (u "现在几点")).
  - reflexivity.
  - intros m Hm. injection Hm as <-. discriminate.
  - vm_compute. reflexivity.
  - assert (E : extract_locations_from_question (u "现在几点") = []) by (vm_compute; reflexivity).
    rewrite E. constructor.
Defined.


End TimeAgentFacts.

Module GeneralFacts.
Import Tools General.

Lemma apply_update_messages : forall st up ms,
  up_messages up = Some ms -> messages (apply_update st up) = ms.
Proof. intros st up ms H. unfold apply_update. rewrite H. reflexivity. Qed.

Lemma str_eqb_DIRECT_TOOL : str_eqb DIRECT_ANSWER TOOL = false.
Proof. vm_compute. reflexivity. Qed.

(** The [answer] node on a conversation ending in an assistant message
    leaves the conversation as it is. *)
Lemma generate_answer_after_assistant : forall st ans ms m,
  messages st = ms ++ [m] -> role m = Assistant ->
  exists a, generate_answer st ans = NodeOk {| up_messages := None; up_next := None;
                                               up_ai_response := a |}.
Proof.
  intros st ans ms m H R. unfold generate_answer. rewrite H, TimeAgentFacts.last_opt_app, R.
  eexists. reflexivity.
Qed.

(** Claim C6 (corrected).  When the decision call fails, the DECISION node
    appends the user message (when [user_input] is a non-empty string) and
    an assistant message 抱歉，处理你的请求时出错: <error>, and no tool
    message; it sets [next] to "direct_answer", so the run goes on to the
    ANSWER node (it is not skipped), which finds an assistant message last
    and leaves the conversation unchanged; no tool is invoked. *)
Theorem decision_failure_goes_through_answer :
  forall (json_loads : pystr -> option JVal) (json_dumps : JVal -> pystr)
         (reg : Registry) (st0 : AgentState) (e : pystr) (ans : Intent.Completion),
  let r := run_general json_loads json_dumps reg st0 (DecisionFailed e) ans in
  run_trace r = [NDecision; NAnswer] /\
  run_invocations r = [] /\
  exists st', run_state r = Some st' /\
    messages st' = messages st0
                   ++ match user_input st0 with
                      | Some s => if truthy s then [text_msg User s] else []
                      | None => []
                      end
                   ++ [text_msg Assistant (u "抱歉，处理你的请求时出错: " ++ e)] /\
    next st' = DIRECT_ANSWER.
Proof.
  intros jl jd reg st0 e ans r. subst r.
  set (added := match user_input st0 with
                | Some s => if truthy s then [text_msg User s] else []
                | None => []
                end).
  set (err := u "抱歉，处理你的请求时出错: " ++ e).
  set (s1 := {| messages := messages st0 ++ added ++ [text_msg Assistant err];
                user_input := user_input st0; next := DIRECT_ANSWER |}).
  assert (HS : should_use_tool st0 (DecisionFailed e)
               = NodeOk {| up_messages := Some (messages st0 ++ added ++ [text_msg Assistant err]);
                           up_next := Some DIRECT_ANSWER; up_ai_response := Some err |}).
  { unfold should_use_tool, added, err. cbv zeta.
    destruct (user_input st0) as [s|]; [destruct (truthy s)|]; reflexivity. }
  assert (Hs1 : messages s1 = (messages st0 ++ added) ++ [text_msg Assistant err])
    by (simpl; rewrite <- app_assoc; reflexivity).
  destruct (generate_answer_after_assistant s1 ans _ _ Hs1 eq_refl) as [a Ha].
  unfold run_general. rewrite HS.
  change (apply_update st0 _) with s1.
  change (next s1) with DIRECT_ANSWER.
  rewrite str_eqb_DIRECT_TOOL, str_eqb_refl. cbv iota beta.
  rewrite Ha. split; [reflexivity|]. split; [reflexivity|].
  eexists. split; [reflexivity|]. split; reflexivity.
Qed.

(** Claim C6, counterexample: a failing decision call does not end the run
    at DECISION; the ANSWER node runs. *)
Lemma decision_failure_visits_answer :
  run_trace (run_general (fun _ => None) (fun _ => []) create_tool_registry
               {| messages := []; user_input := Some (u "现在几点"); next := [] |}
               (DecisionFailed (u "Connection error.")) (Intent.CallFailed (u "Connection error.")))
  = [NDecision; NAnswer].
Proof. vm_compute. reflexivity. Qed.



(** Claim C8 (corrected).  [handle_tool_call] returns the structured
    failure 工具 <name> 不存在 for a name that is not registered, and
    otherwise returns exactly what the tool's own [call] returns: it adds
    no exception handler, so an exception the tool does not catch itself
    propagates to its caller. *)
Theorem handle_tool_call_not_found_or_delegates :
  forall (reg : Registry) (name : pystr) (args : JVal),
  (dget name reg = None ->
   handle_tool_call reg [(u "name", JStr name); (u "arguments", args)]
   = Returned (err_result (u "工具 " ++ name ++ u " 不存在"))) /\
  (forall t, dget name reg = Some t ->
   handle_tool_call reg [(u "name", JStr name); (u "arguments", args)] = tool_call t name args).
Proof.
  intros reg name args.
  assert (H : handle_tool_call reg [(u "name", JStr name); (u "arguments", args)]
              = match dget name reg with
                | None => Returned (err_result (u "工具 " ++ name ++ u " 不存在"))
                | Some t => tool_call t name args
                end) by reflexivity.
  rewrite H. split; [intros -> | intros t ->]; reflexivity.
Qed.

(** Claim C8, counterexample: arguments that are a JSON list reach the
    calculator, whose [params.get] raises outside its [try]; a non-str
    exchange makes the stock tool's [exchange.upper()] raise.  Both
    exceptions leave [handle_tool_call]. *)
Lemma handle_tool_call_propagates_tool_exceptions :
  handle_tool_call create_tool_registry [(u "name", JStr (u "calculate")); (u "arguments", JList [])]
  = Raised (u "'list' object has no attribute 'get'") /\
  handle_tool_call create_tool_registry
    [(u "name", JStr (u "get_stock_info"));
     (u "arguments", JDict [(u "symbol", JStr (u "600000")); (u "exchange", JInt 1)])]
  = Raised (u "'int' object has no attribute 'upper'").
Proof. split; vm_compute; reflexivity. Qed.

(** Instance of claim C8 on an unregistered name. *)
Lemma handle_tool_call_not_found_or_delegates_witness :
  dget (u "get_current_time") create_tool_registry = None /\
  handle_tool_call create_tool_registry
    [(u "name", JStr (u "get_current_time")); (u "arguments", JDict [])]
  = Returned (err_result (u "工具 " ++ u "get_current_time" ++ u " 不存在")).
Proof.
  assert (H : dget (u "get_current_time") create_tool_registry = None) by (vm_compute; reflexivity).
  split; [exact H|].
  exact (proj1 (handle_tool_call_not_found_or_delegates create_tool_registry
                  (u "get_current_time") (JDict [])) H).
Defined.

End GeneralFacts.

(* ------------------------------------------------------------------ *)
(** ** Further properties of the tool registry and the tools *)

Module ToolExtraFacts.
Import Tools ToolsExtra.

Lemma dget_app : forall {A} k (l1 l2 : list (pystr * A)),
  dget k (l1 ++ l2) = match dget k l1 with Some v => Some v | None => dget k l2 end.
Proof.
  intros A k l1 l2. induction l1 as [|[k' v] l1 IH]; [reflexivity|].
  simpl. destruct (str_eqb k k'); [reflexivity | exact IH].
Qed.

Lemma dget_replace : forall n name t (reg : Registry),
  dget n (map (fun '(k, x) => if str_eqb k name then (k, t) else (k, x)) reg)
  = match dget n reg with
    | Some x => Some (if str_eqb n name then t else x)
    | None => None
    end.
Proof.
  intros n name t reg. induction reg as [|[k x] reg IH]; [reflexivity|].
  cbn [map dget]. destruct (str_eqb k name) eqn:K; cbn [dget];
    destruct (str_eqb n k) eqn:N; try exact IH.
  - apply str_eqb_eq in N. subst. rewrite K. reflexivity.
  - apply str_eqb_eq in N. subst. rewrite K. reflexivity.
Qed.

Lemma dget_none_key : forall {A} n (l : list (pystr * A)),
  dget n l = None -> ~ In n (map fst l).
Proof.
  intros A n l. induction l as [|[k v] l IH]; intros H Hin; [exact Hin|].
  simpl in H, Hin. destruct (str_eqb n k) eqn:E; [discriminate|].
  destruct Hin as [->|Hin]; [rewrite str_eqb_refl in E; discriminate | exact (IH H Hin)].
Qed.

(** Extra X1.  After [register_tool], [get_tool] finds the registered tool
    under its name, whether the name was new or already registered, and
    answers every other name exactly as before. *)
Theorem register_tool_then_get_tool : forall (reg : Registry) (t : Tool) (n : pystr),
  get_tool (register_tool reg t) (JStr n)
  = if str_eqb n (tool_name t) then inl (Some t) else get_tool reg (JStr n).
Proof.
  intros reg t n. unfold get_tool, register_tool, has_key.
  destruct (dget (tool_name t) reg) as [x|] eqn:H.
  - rewrite dget_replace. destruct (str_eqb n (tool_name t)) eqn:E.
    + apply str_eqb_eq in E. subst. rewrite H. reflexivity.
    + destruct (dget n reg); reflexivity.
  - rewrite dget_app. destruct (str_eqb n (tool_name t)) eqn:E.
    + apply str_eqb_eq in E. subst. rewrite H. simpl. rewrite str_eqb_refl. reflexivity.
    + destruct (dget n reg); [reflexivity|]. simpl. rewrite E. reflexivity.
Qed.

(** Extra X2.  [register_tool] keeps the registry's names free of
    duplicates and in insertion order: re-registering a name keeps its
    position, and a new name goes last. *)
Theorem register_tool_keys : forall (reg : Registry) (t : Tool),
  NoDup (map fst reg) ->
  NoDup (map fst (register_tool reg t)) /\
  map fst (register_tool reg t)
  = if has_key (tool_name t) reg then map fst reg else map fst reg ++ [tool_name t].
Proof.
  intros reg t Hnd. unfold register_tool, has_key.
  destruct (dget (tool_name t) reg) as [x|] eqn:H.
  - assert (Hk : map fst (map (fun '(k, x) => if str_eqb k (tool_name t) then (k, t) else (k, x)) reg)
                 = map fst reg).
    { rewrite map_map. apply map_ext. intros [k y]. destruct (str_eqb k (tool_name t)); reflexivity. }
    rewrite Hk. split; [exact Hnd | reflexivity].
  - rewrite map_app. split; [|reflexivity].
    apply NoDup_app.
    + exact Hnd.
    + repeat constructor. intros [].
    + intros k Hk [<-|[]]. exact (dget_none_key _ _ H Hk).
Qed.

Lemma register_tool_keys_witness :
  NoDup (map fst ([] : Registry)) /\
  NoDup (map fst (register_tool [] WeatherTool)) /\
  map fst (register_tool [] WeatherTool) = [u "get_weather"].
Proof.
  assert (H : NoDup (map fst ([] : Registry))) by constructor.
  split; [exact H|].
  destruct (register_tool_keys [] WeatherTool H) as [H1 H2]. split; [exact H1|].
  rewrite H2. reflexivity.
Defined.

(** Extra X3.  A call dict without a "name" key is answered with the
    structured failure 工具 None 不存在, whatever the registry; a call to a
    registered tool without an "arguments" key runs the tool with an empty
    dict of arguments. *)
Theorem handle_tool_call_missing_keys : forall (reg : Registry) (call_dict : list (pystr * JVal)),
  (dget (u "name") call_dict = None ->
   handle_tool_call reg call_dict = Returned (err_result (u "工具 None 不存在"))) /\
  (forall name t, dget (u "name") call_dict = Some (JStr name) ->
   dget (u "arguments") call_dict = None -> dget name reg = Some t ->
   handle_tool_call reg call_dict = tool_call t name (JDict [])).
Proof.
  intros reg cd. split.
  - intros H. unfold handle_tool_call. rewrite H. cbv zeta. unfold get_tool.
    cbv iota. vm_compute. reflexivity.
  - intros name t H1 H2 H3. unfold handle_tool_call. rewrite H1, H2. cbv zeta.
    unfold get_tool. rewrite H3. reflexivity.
Qed.

Lemma handle_tool_call_missing_keys_witness :
  handle_tool_call create_tool_registry [(u "arguments", JDict [])]
    = Returned (err_result (u "工具 None 不存在")) /\
  handle_tool_call create_tool_registry [(u "name", JStr (u "get_weather"))]
    = weather_call (JDict []).
Proof.
  split.
  - apply (proj1 (handle_tool_call_missing_keys create_tool_registry _)).
    vm_compute. reflexivity.
  - apply (proj2 (handle_tool_call_missing_keys create_tool_registry _) (u "get_weather") WeatherTool);
      vm_compute; reflexivity.
Defined.

(** Extra X4.  The weather tool succeeds for every dict of arguments,
    echoing "city" (default the empty string) and "date" (default 今天); for
    arguments that are not a dict its [params.get] raises AttributeError. *)
Theorem weather_call_defaults :
  (forall kv, exists data,
     weather_call (JDict kv) = Returned (ok_result (JDict data)) /\
     dget (u "city") data = Some (match dget (u "city") kv with Some v => v | None => JStr [] end) /\
     dget (u "date") data = Some (match dget (u "date") kv with Some v => v | None => JStr (u "今天") end)) /\
  (forall v, (forall kv, v <> JDict kv) -> weather_call v = Raised (no_attr v (u "get"))).
Proof.
  split.
  - intros kv. unfold weather_call, pget. eexists. split; [reflexivity|].
    split; vm_compute; reflexivity.
  - intros v Hv. destruct v; try reflexivity. exfalso. exact (Hv kv eq_refl).
Qed.

(** Instance of extra X4: arguments given as a list. *)
Lemma weather_call_defaults_witness :
  (forall kv, JList [] <> JDict kv) /\
  weather_call (JList []) = Raised (u "'list' object has no attribute 'get'").
Proof.
  assert (H : forall kv, JList [] <> JDict kv) by (intros kv; discriminate).
  split; [exact H|].
  rewrite (proj2 weather_call_defaults (JList []) H). vm_compute. reflexivity.
Defined.



(** Extra X6.  When every parameter spec is a dict, the function schema's
    "required" list holds exactly the parameter names whose "required"
    entry is truthy, in declaration order (a spec without the entry is
    optional); a parameter spec that is not a dict makes the schema
    construction raise. *)
Theorem to_function_schema_required :
  forall name description parameters,
  (Forall (fun kv => exists d, snd kv = JDict d) parameters ->
   to_function_schema name description parameters
   = inl (JDict [(u "name", JStr name); (u "description", JStr description);
                 (u "parameters", JDict [(u "type", JStr (u "object"));
                                         (u "properties", JDict parameters);
                                         (u "required", JList (map JStr (map fst
                                            (filter (fun kv => match snd kv with
                                                     | JDict d => match dget (u "required") d with
                                                                  | Some x => jtruthy x
                                                                  | None => false end
                                                     | _ => false end) parameters))))])])) /\
  (forall k v, In (k, v) parameters -> (forall d, v <> JDict d) ->
   exists e, to_function_schema name description parameters = inr e).
Proof.
  intros name desc params.
  assert (Hr : Forall (fun kv => exists d, snd kv = JDict d) params ->
     required_of params = inl (map fst (filter (fun kv => match snd kv with
                                                     | JDict d => match dget (u "required") d with
                                                                  | Some x => jtruthy x
                                                                  | None => false end
                                                     | _ => false end) params))).
  { induction params as [|[k v] r IH]; intros H; [reflexivity|].
    inversion H as [|x xs [d Hd] Hr']; subst. simpl in Hd. subst v.
    simpl. rewrite (IH Hr'). destruct (match dget (u "required") d with
                                       | Some x => jtruthy x | None => false end); reflexivity. }
  assert (He : forall k v, In (k, v) params -> (forall d, v <> JDict d) ->
               exists e, required_of params = inr e).
  { clear Hr. induction params as [|[k' v'] r IH]; intros k v Hin Hv; [destruct Hin|].
    simpl. destruct v'; try (eexists; reflexivity).
    destruct Hin as [Heq|Hin].
    - injection Heq as _ Hvv. exfalso. exact (Hv kv (eq_sym Hvv)).
    - destruct (IH k v Hin Hv) as [e ->]. eexists. reflexivity. }
  unfold to_function_schema. split.
  - intros H. rewrite (Hr H). reflexivity.
  - intros k v Hin Hv. destruct (He k v Hin Hv) as [e ->]. eexists. reflexivity.
Qed.

(** Instance of extra X6: the parameters of [WeatherTool]. *)
Lemma to_function_schema_required_witness :
  let params := [(u "city", JDict [(u "type", JStr (u "string")); (u "description", JStr (u "城市名称"));
                                   (u "required", JBool true)]);
                 (u "date", JDict [(u "type", JStr (u "string")); (u "description", JStr (u "查询日期"));
                                   (u "required", JBool false)])] in
  Forall (fun kv => exists d, snd kv = JDict d) params /\
  exists sch, to_function_schema (u "get_weather") (u "获取指定城市的天气信息") params = inl sch /\
    sch = JDict [(u "name", JStr (u "get_weather")); (u "description", JStr (u "获取指定城市的天气信息"));
                 (u "parameters", JDict [(u "type", JStr (u "object")); (u "properties", JDict params);
                                         (u "required", JList [JStr (u "city")])])].
Proof.
  intros params.
  assert (H : Forall (fun kv => exists d, snd kv = JDict d) params)
    by (repeat constructor; eexists; reflexivity).
  split; [exact H|].
  eexists. split; [exact (proj1 (to_function_schema_required _ _ params) H)|].
  vm_compute. reflexivity.
Defined.

Lemma lstrip_ch_spec : forall c s,
  exists m, s = repeat c m ++ lstrip_ch c s /\ hd_error (lstrip_ch c s) <> Some c.
Proof.
  intros c s. induction s as [|x s IH].
  - exists O. split; [reflexivity | discriminate].
  - simpl. destruct (x =? c) eqn:E.
    + apply Z.eqb_eq in E. subst. destruct IH as [m [H1 H2]].
      exists (S m). split; [simpl; f_equal; exact H1 | exact H2].
    + exists O. split; [reflexivity|]. simpl. intro H. injection H as ->.
      rewrite Z.eqb_refl in E. discriminate.
Qed.

(** Extra X7.  The URL of [ExternalTool.call] is the base URL without its
    trailing slashes, one slash, and the endpoint without its leading
    slashes: exactly one slash joins them, however many either side had. *)
Theorem call_url_single_slash : forall base_url endpoint,
  exists b e n m,
    base_url = b ++ repeat 47 n /\ endpoint = repeat 47 m ++ e /\
    hd_error (rev b) <> Some 47 /\ hd_error e <> Some 47 /\
    call_url base_url endpoint = b ++ [47] ++ e.
Proof.
  intros base endpoint.
  destruct (lstrip_ch_spec 47 (rev base)) as [n [Hb1 Hb2]].
  destruct (lstrip_ch_spec 47 endpoint) as [m [He1 He2]].
  exists (rstrip_ch 47 base), (lstrip_ch 47 endpoint), n, m.
  unfold rstrip_ch. rewrite rev_involutive.
  set (L := lstrip_ch 47 (rev base)) in *.
  split; [|split; [exact He1|split; [exact Hb2|split; [exact He2|reflexivity]]]].
  transitivity (rev (rev base)); [symmetry; apply rev_involutive|].
  rewrite Hb1, rev_app_distr. f_equal. apply rev_repeat.
Qed.

(** Instance of extra X7: a base URL with a trailing slash and an endpoint
    with a leading one. *)
Lemma call_url_single_slash_witness :
  call_url (u "http://localhost:8000/") (u "/weather") = u "http://localhost:8000/weather" /\
  exists b e n m,
    u "http://localhost:8000/" = b ++ repeat 47 n /\ u "/weather" = repeat 47 m ++ e /\
    hd_error (rev b) <> Some 47 /\ hd_error e <> Some 47 /\
    call_url (u "http://localhost:8000/") (u "/weather") = b ++ [47] ++ e.
Proof.
  split; [vm_compute; reflexivity|].
  exact (call_url_single_slash (u "http://localhost:8000/") (u "/weather")).
Defined.

End ToolExtraFacts.

Module IntentExtraFacts.
Import Intent Router.

(** Extra X8.  [IntentAgent.is_time_related] is true exactly when the
    classification call returns a content whose stripped text is 时间相关;
    a failed call or a None content gives false. *)
Theorem intent_is_time_related_exact : forall c,
  IntentExtra.is_time_related c = true <->
  exists content, c = CallReturned (Some content) /\ strip content = TIME_RELATED.
Proof.
  intros c. unfold IntentExtra.is_time_related, recognize_intent. split.
  - destruct c as [e|[content|]].
    + intros H. vm_compute in H. discriminate.
    + cbv zeta. destruct (str_mem (strip content) [TIME_RELATED; NON_TIME_RELATED; CANNOT_DETERMINE]).
      * intros H. apply str_eqb_eq in H. eexists. split; [reflexivity | exact H].
      * intros H. vm_compute in H. discriminate.
    + intros H. vm_compute in H. discriminate.
  - intros [content [-> H]]. cbv zeta. rewrite H.
    replace (str_mem TIME_RELATED [TIME_RELATED; NON_TIME_RELATED; CANNOT_DETERMINE]) with true
      by (vm_compute; reflexivity).
    apply str_eqb_refl.
Qed.

(** Instance of extra X8: the label surrounded by spaces. *)
Lemma intent_is_time_related_exact_witness :
  strip (u "  时间相关 ") = TIME_RELATED /\
  IntentExtra.is_time_related (CallReturned (Some (u "  时间相关 "))) = true.
Proof.
  assert (H : strip (u "  时间相关 ") = TIME_RELATED) by (vm_compute; reflexivity).
  split; [exact H|].
  apply (proj2 (intent_is_time_related_exact (CallReturned (Some (u "  时间相关 "))))).
  exists (u "  时间相关 "). split; [reflexivity | exact H].
Defined.

(** Extra X9.  The router invokes the time agent exactly when the intent
    is 时间相关, and when the intent is neither 无法判断 nor 未知 the outcome
    of the clarification call does not affect the turn. *)
Theorem route_turn_time_agent_iff : forall c1 c2,
  (route_turn c1 c2 = InvokeTimeAgent <-> recognize_intent c1 = TIME_RELATED) /\
  (recognize_intent c1 <> CANNOT_DETERMINE -> recognize_intent c1 <> UNKNOWN ->
   forall c2', route_turn c1 c2 = route_turn c1 c2').
Proof.
  intros c1 c2. unfold route_turn, process_intent.
  destruct (str_eqb (recognize_intent c1) CANNOT_DETERMINE
            || str_eqb (recognize_intent c1) UNKNOWN) eqn:E.
  - apply orb_true_iff in E.
    assert (Hamb : recognize_intent c1 = CANNOT_DETERMINE \/ recognize_intent c1 = UNKNOWN)
      by (destruct E as [E|E]; apply str_eqb_eq in E; auto).
    pose proof (IntentFacts.ambiguous_not_time _ Hamb) as Hn.
    split.
    + rewrite Hn. split.
      * destruct (truthy (generate_clarification_question c2)); discriminate.
      * intros H. rewrite H in Hn. rewrite str_eqb_refl in Hn. discriminate.
    + intros H1 H2. exfalso. destruct Hamb; contradiction.
  - split; [|intros _ _ c2'; reflexivity].
    destruct (str_eqb (recognize_intent c1) TIME_RELATED) eqn:T.
    + apply str_eqb_eq in T. split; [intros _; exact T | reflexivity].
    + split; [discriminate|]. intros H. rewrite H, str_eqb_refl in T. discriminate.
Qed.

(** Instance of extra X9: a definite time intent, with a failing second call. *)
Lemma route_turn_time_agent_iff_witness :
  recognize_intent (CallReturned (Some TIME_RELATED)) = TIME_RELATED /\
  route_turn (CallReturned (Some TIME_RELATED)) (CallFailed (u "timeout")) = InvokeTimeAgent.
Proof.
  assert (H : recognize_intent (CallReturned (Some TIME_RELATED)) = TIME_RELATED) by (vm_compute; reflexivity).
  split; [exact H|].
  apply (proj2 (proj1 (route_turn_time_agent_iff (CallReturned (Some TIME_RELATED)) (CallFailed (u "timeout"))))).
  exact H.
Defined.

End IntentExtraFacts.

(* ------------------------------------------------------------------ *)
(** ** Further properties of the time sub-agent *)

Module TimeExtraFacts.
Import Time TimeAgentFacts.

(** Extra X10.  [extract_locations_from_question] returns the cities of its
    fixed list that occur as substrings of the question, in the list's
    order and each once, whatever their order or repetition in the
    question. *)
Theorem extract_locations_from_question_filter : forall q,
  extract_locations_from_question q
  = filter (fun c => contains c q)
      (map u ["北京"; "上海"; "广州"; "深圳"; "纽约"; "洛杉矶"; "芝加哥"; "伦敦"; "巴黎";
              "东京"; "悉尼"]%string) /\
  NoDup (extract_locations_from_question q).
Proof.
  intros q. unfold extract_locations_from_question.
  rewrite (extract_go_filter q city_keywords [] city_keywords_self city_keywords_nodup
             (fun c _ H => H)).
  rewrite app_nil_l. split; [reflexivity|].
  apply NoDup_filter. exact city_keywords_nodup.
Qed.

Lemma map_location_default_in : forall l,
  In (map_location_to_timezone l) (map snd timezone_mapping).
Proof.
  intros l. unfold map_location_to_timezone.
  destruct (dget l timezone_mapping) as [tz|] eqn:E.
  - clear -E. induction timezone_mapping as [|[k v] r IH]; [discriminate|].
    simpl in E |- *. destruct (str_eqb l k); [injection E as ->; left; reflexivity|].
    right. exact (IH E).
  - vm_compute. left. reflexivity.
Qed.

(** Extra X11.  [extract_locations] never returns an empty list; each pair
    it returns holds the timezone [map_location_to_timezone] gives for its
    location, which is one of the mapping's timezones; a None question, the
    empty question and every question that names none of the cities give
    the single default pair (默认, Asia/Shanghai). *)
Theorem extract_locations_nonempty_mapped : forall q,
  extract_locations q <> [] /\
  Forall (fun lt => snd lt = map_location_to_timezone (fst lt)
                    /\ In (snd lt) (map snd timezone_mapping)) (extract_locations q) /\
  extract_locations None = [(u "默认", u "Asia/Shanghai")] /\
  extract_locations (Some []) = [(u "默认", u "Asia/Shanghai")] /\
  (forall s, extract_locations_from_question s = [] ->
     extract_locations (Some s) = [(u "默认", u "Asia/Shanghai")]).
Proof.
  intros q.
  assert (Hd : map_location_to_timezone DEFAULT_LOC = DEFAULT_TZ) by (vm_compute; reflexivity).
  assert (HdI : In DEFAULT_TZ (map snd timezone_mapping)) by (vm_compute; left; reflexivity).
  split; [|split; [|split; [reflexivity|split; [vm_compute; reflexivity|]]]].
  3: { intros s Hs. unfold extract_locations, locations_and_timezones_of. rewrite Hs. reflexivity. }
  - unfold extract_locations, locations_and_timezones_of.
    destruct q as [q|]; [|discriminate].
    destruct (map _ (extract_locations_from_question q)); discriminate.
  - unfold extract_locations, locations_and_timezones_of.
    destruct q as [q|].
    + destruct (map (fun l => (l, map_location_to_timezone l)) (extract_locations_from_question q))
        as [|x xs] eqn:E.
      * constructor; [|constructor]. split; [symmetry; exact Hd | exact HdI].
      * rewrite <- E. apply Forall_forall. intros lt Hin. apply in_map_iff in Hin as [l [<- _]].
        split; [reflexivity | apply map_location_default_in].
    + constructor; [|constructor]. split; [symmetry; exact Hd | exact HdI].
Qed.

Lemma is_prefix_spec : forall p s, is_prefix p s = true <-> exists r, s = p ++ r.
Proof.
  induction p as [|x p IH]; intros s; simpl.
  - split; [intros _; exists s; reflexivity | reflexivity].
  - destruct s as [|y s].
    + split; [discriminate | intros [r H]; discriminate].
    + rewrite andb_true_iff, Z.eqb_eq, IH. split.
      * intros [-> [r ->]]. exists r. reflexivity.
      * intros [r H]. injection H as -> ->. split; [reflexivity | exists r; reflexivity].
Qed.

Lemma contains_spec : forall n h, contains n h = true <-> exists a b, h = a ++ n ++ b.
Proof.
  intros n h. induction h as [|y h IH]; simpl.
  - rewrite is_prefix_spec. split.
    + intros [r Hr]. exists [], []. simpl. destruct n; [reflexivity|discriminate].
    + intros [a [b H]]. exists []. destruct a, n; try discriminate. reflexivity.
  - rewrite orb_true_iff, is_prefix_spec, IH. split.
    + intros [[r Hr]|[a [b Hab]]].
      * exists [], r. exact Hr.
      * exists (y :: a), b. rewrite Hab. reflexivity.
    + intros [a [b H]]. destruct a as [|z a].
      * left. exists b. exact H.
      * right. injection H as -> H. exists a, b. exact H.
Qed.

Lemma contains_trans : forall a b c, contains a b = true -> contains b c = true -> contains a c = true.
Proof.
  intros a b c H1 H2. apply contains_spec in H1 as [x [y ->]]. apply contains_spec in H2 as [z [w ->]].
  apply contains_spec. exists (z ++ x), (y ++ w). rewrite <- !app_assoc. reflexivity.
Qed.

(** Extra X12.  The time agent's keyword test is monotone: a question that
    contains a time-related question as a substring is time-related too. *)
Theorem is_time_related_superstring : forall q q',
  contains q q' = true -> is_time_related q = true -> is_time_related q' = true.
Proof.
  intros q q' Hc Ht. unfold is_time_related in *.
  apply existsb_exists in Ht as [k [Hk Hkq]]. apply existsb_exists.
  exists k. split; [exact Hk | exact (contains_trans _ _ _ Hkq Hc)].
Qed.

Lemma is_time_related_superstring_witness :
  contains (u "现在几点") (u "请问北京现在几点了？") = true /\
  is_time_related (u "现在几点") = true /\
  is_time_related (u "请问北京现在几点了？") = true.
Proof.
  assert (H1 : contains (u "现在几点") (u "请问北京现在几点了？") = true) by (vm_compute; reflexivity).
  assert (H2 : is_time_related (u "现在几点") = true) by (vm_compute; reflexivity).
  split; [exact H1|]. split; [exact H2|].
  exact (is_time_related_superstring _ _ H1 H2).
Defined.

Lemma has_key_app : forall {A} k (l1 l2 : list (pystr * A)),
  has_key k (l1 ++ l2) = has_key k l1 || has_key k l2.
Proof. intros. unfold has_key. rewrite ToolExtraFacts.dget_app. destruct (dget k l1); reflexivity. Qed.

(** Extra X13.  For a valid timezone, [get_current_time] adds the "time"
    key exactly when the format is "time" or "both", and the "date" key
    exactly when it is "date" or "both"; with no format it adds neither. *)
Theorem get_current_time_format_keys :
  forall (all_timezones : list pystr) (clock : pystr -> DateTime) (tz : pystr) (format : option pystr),
  In tz all_timezones ->
  exists kv, get_current_time all_timezones clock tz format = JDict kv /\
    has_key (u "time") kv = match format with Some f => str_mem f [u "time"; u "both"] | None => false end /\
    has_key (u "date") kv = match format with Some f => str_mem f [u "date"; u "both"] | None => false end.
Proof.
  intros all clock tz format Hin. unfold get_current_time.
  apply str_mem_In in Hin. rewrite Hin. cbv beta iota zeta.
  eexists. split; [reflexivity|].
  set (t := clock tz).
  set (base := [(u "timezone", JStr tz); (u "datetime", JStr (isoformat t));
       (u "year", JInt (year t)); (u "month", JInt (month t)); (u "day", JInt (day t));
       (u "hour", JInt (hour t)); (u "minute", JInt (minute t));
       (u "second", JInt (second t)); (u "weekday", JStr (en_weekday (weekday t)));
       (u "formatted_time", JStr (strftime_ymd t ++ u " " ++ strftime_hms t));
       (u "timezone_abbreviation", JStr (tzname t))]).
  assert (Bt : has_key (u "time") base = false) by (unfold base, has_key; cbn [dget]; eval_lit_eqbs; reflexivity).
  assert (Bd : has_key (u "date") base = false) by (unfold base, has_key; cbn [dget]; eval_lit_eqbs; reflexivity).
  assert (Tt : has_key (u "time") [(u "time", JStr (strftime_hms t))] = true)
    by (unfold has_key; cbn [dget]; rewrite str_eqb_refl; reflexivity).
  assert (Td : has_key (u "date") [(u "time", JStr (strftime_hms t))] = false)
    by (unfold has_key; cbn [dget]; eval_lit_eqbs; reflexivity).
  assert (Dt : has_key (u "time") [(u "date", JStr (zh_date t))] = false)
    by (unfold has_key; cbn [dget]; eval_lit_eqbs; reflexivity).
  assert (Dd : has_key (u "date") [(u "date", JStr (zh_date t))] = true)
    by (unfold has_key; cbn [dget]; rewrite str_eqb_refl; reflexivity).
  destruct format as [f|]; cbv beta iota.
  - cbn [str_mem]. rewrite !orb_false_r.
    destruct (str_eqb f (u "date") || str_eqb f (u "both")) eqn:D;
    destruct (str_eqb f (u "time") || str_eqb f (u "both")) eqn:T;
    rewrite ?has_key_app, ?Bt, ?Bd, ?Tt, ?Td, ?Dt, ?Dd; split; reflexivity.
  - split; assumption.
Qed.

Lemma get_current_time_format_keys_witness :
  In (u "Asia/Tokyo") [u "Asia/Tokyo"] /\
  exists kv, get_current_time [u "Asia/Tokyo"] (fun _ => {| year := 2026; month := 10; day := 19;
        hour := 10; minute := 5; second := 7; microsecond := 0; weekday := 0;
        utcoffset_min := 540; tzname := u "JST" |}) (u "Asia/Tokyo") (Some (u "time")) = JDict kv /\
    has_key (u "time") kv = true /\ has_key (u "date") kv = false.
Proof.
  assert (H : In (u "Asia/Tokyo") [u "Asia/Tokyo"]) by (left; reflexivity).
  split; [exact H|].
  destruct (get_current_time_format_keys [u "Asia/Tokyo"] (fun _ => {| year := 2026; month := 10; day := 19;
        hour := 10; minute := 5; second := 7; microsecond := 0; weekday := 0;
        utcoffset_min := 540; tzname := u "JST" |}) (u "Asia/Tokyo") (Some (u "time")) H)
    as [kv [E [T D]]].
  exists kv. split; [exact E|]. rewrite T, D. split; vm_compute; reflexivity.
Defined.

Lemma find_none_intro : forall {A} (f : A -> bool) l,
  (forall x, In x l -> f x = false) -> find f l = None.
Proof.
  intros A f l. induction l as [|x l IH]; intros H; [reflexivity|].
  simpl. rewrite (H x (or_introl eq_refl)). apply IH. intros y Hy. apply H. right. exact Hy.
Qed.

(** Extra X14.  The time tool called with keyword arguments named only
    "timezone" and "format" returns [get_current_time] of them, with
    Asia/Shanghai when no timezone is given; any other argument name makes
    the call raise TypeError naming an unexpected argument. *)
Theorem call_time_tool_arguments :
  forall (all_timezones : list pystr) (clock : pystr -> DateTime) (args : list (pystr * pystr)),
  (Forall (fun kv => fst kv = u "timezone" \/ fst kv = u "format") args ->
   call_time_tool all_timezones clock args
   = inl (get_current_time all_timezones clock
            (match dget (u "timezone") args with Some tz => tz | None => u "Asia/Shanghai" end)
            (dget (u "format") args))) /\
  (forall k v, In (k, v) args -> k <> u "timezone" -> k <> u "format" ->
   exists k', k' <> u "timezone" /\ k' <> u "format" /\
     call_time_tool all_timezones clock args
     = inr (u "get_current_time() got an unexpected keyword argument '" ++ k' ++ [39])).
Proof.
  intros all clock args. unfold call_time_tool. split.
  - intros H.
    assert (Hn : find (fun kv => negb (str_mem (fst kv) [u "timezone"; u "format"])) args = None).
    { apply find_none_intro. intros x Hx. apply Forall_forall with (x := x) in H; [|exact Hx].
      destruct H as [H|H]; rewrite H; vm_compute; reflexivity. }
    rewrite Hn. reflexivity.
  - intros k v Hin Hk1 Hk2.
    destruct (find (fun kv => negb (str_mem (fst kv) [u "timezone"; u "format"])) args)
      as [[k' v']|] eqn:F.
    + apply find_some in F as [_ F]. cbn [fst] in F. apply negb_true_iff in F.
      exists k'. cbn [str_mem] in F. rewrite orb_false_r in F.
      apply orb_false_iff in F as [F1 F2].
      split; [intro E; rewrite E, str_eqb_refl in F1; discriminate|].
      split; [intro E; rewrite E, str_eqb_refl in F2; discriminate|].
      reflexivity.
    + exfalso. apply find_none with (x := (k, v)) in F; [|exact Hin].
      cbn [fst str_mem] in F. rewrite orb_false_r in F.
      apply negb_false_iff, orb_true_iff in F as [F|F]; apply str_eqb_eq in F; contradiction.
Qed.

Lemma call_time_tool_arguments_witness :
  In (u "city", u "东京") [(u "city", u "东京")] /\ u "city" <> u "timezone" /\ u "city" <> u "format" /\
  exists k', k' <> u "timezone" /\ k' <> u "format" /\
    call_time_tool [u "Asia/Tokyo"] (fun _ => {| year := 2026; month := 10; day := 19;
        hour := 10; minute := 5; second := 7; microsecond := 0; weekday := 0;
        utcoffset_min := 540; tzname := u "JST" |}) [(u "city", u "东京")]
    = inr (u "get_current_time() got an unexpected keyword argument '" ++ k' ++ [39]).
Proof.
  assert (H1 : In (u "city", u "东京") [(u "city", u "东京")]) by (left; reflexivity).
  assert (H2 : u "city" <> u "timezone") by (vm_compute; discriminate).
  assert (H3 : u "city" <> u "format") by (vm_compute; discriminate).
  split; [exact H1|]. split; [exact H2|]. split; [exact H3|].
  exact (proj2 (call_time_tool_arguments _ _ _) _ _ H1 H2 H3).
Defined.

(** Extra X15.  When the last message is an assistant message with a
    tool_calls list, [call_tool_node] appends exactly one tool message per
    call, in order, named after the call, and routes to summarize;
    otherwise it appends the assistant message 抱歉，无法识别工具调用。 and
    routes to end. *)
Theorem call_tool_node_one_result_per_call :
  forall (all_timezones : list pystr) (clock : pystr -> DateTime) (json_dumps : JVal -> pystr)
         (st : TState),
  let st' := call_tool_node all_timezones clock json_dumps st in
  (forall m tcs, last_opt (get_messages st) = Some m -> role m = Assistant -> tool_calls m = Some tcs ->
   exists tms, get_messages st' = get_messages st ++ tms /\
     Forall (fun m => role m = ToolRole) tms /\
     map mname tms = map (fun tc => match tc with TimeCall n _ => Some n | FnCall _ _ => None end) tcs /\
     st_next st' = Some (u "summarize")) /\
  ((forall m, last_opt (get_messages st) = Some m -> role m <> Assistant \/ tool_calls m = None) ->
   get_messages st' = get_messages st ++ [text_msg Assistant NO_TOOL_CALL] /\
   st_next st' = Some (u "end")).
Proof.
  intros all clock jd st st'. subst st'. unfold call_tool_node. cbv zeta. split.
  - intros m tcs L R T. rewrite L, R, T.
    exists (map (call_one all clock jd) tcs). split; [reflexivity|]. split; [|split; [|reflexivity]].
    + apply Forall_forall. intros x Hx. apply in_map_iff in Hx as [tc [<- _]]. apply call_one_role.
    + rewrite map_map. apply map_ext. intros [n args|n a]; [|reflexivity].
      unfold call_one. destruct (str_eqb n TIME_TOOL_NAME); [|reflexivity].
      destruct (call_time_tool all clock args); reflexivity.
  - intros H. destruct (last_opt (get_messages st)) as [m|] eqn:L; [|split; reflexivity].
    destruct (H m eq_refl) as [R|T].
    + destruct (role m); [split; reflexivity | split; reflexivity | contradiction R; reflexivity | split; reflexivity].
    + rewrite T. destruct (role m); split; reflexivity.
Qed.

Lemma call_tool_node_one_result_per_call_witness :
  let st := mk_state (Some [text_msg User (u "现在几点？")]) None (Some (u "call_tool")) None in
  (forall m, last_opt (get_messages st) = Some m -> role m <> Assistant \/ tool_calls m = None) /\
  get_messages (call_tool_node [] (fun _ => {| year := 2026; month := 10; day := 19;
        hour := 10; minute := 5; second := 7; microsecond := 0; weekday := 0;
        utcoffset_min := 480; tzname := u "CST" |}) (fun _ => []) st)
  = get_messages st ++ [text_msg Assistant NO_TOOL_CALL].
Proof.
  intros st.
  assert (H : forall m, last_opt (get_messages st) = Some m -> role m <> Assistant \/ tool_calls m = None).
  { intros m E. vm_compute in E. injection E as <-. right. reflexivity. }
  split; [exact H|].
  exact (proj1 (proj2 (call_tool_node_one_result_per_call [] (fun _ => {| year := 2026; month := 10; day := 19;
        hour := 10; minute := 5; second := 7; microsecond := 0; weekday := 0;
        utcoffset_min := 480; tzname := u "CST" |}) (fun _ => []) st) H)).
Defined.

Lemma first_user_question_none : forall ms,
  (forall m, In m ms -> role m <> User) -> first_user_question ms = Some [].
Proof.
  intros ms H. induction ms as [|m ms IH]; [reflexivity|].
  simpl. rewrite role_eqb_false by (apply H; left; reflexivity).
  apply IH. intros x Hx. apply H. right. exact Hx.
Qed.

(** Extra X16.  On a conversation with no user message (and not ending in
    a tool result), [decide_next] reads the empty question, finds it not
    time-related, appends the refusal and routes to end. *)
Theorem decide_without_user_message_refuses : forall st,
  (forall m, In m (get_messages st) -> role m <> User) ->
  (forall m, last_opt (get_messages st) = Some m -> role m <> ToolRole) ->
  decide_next st = mk_state (Some (get_messages st ++ [text_msg Assistant REFUSAL])) None
                            (Some (u "end")) None.
Proof.
  intros st Hu Hl.
  assert (Hb : decide_body (get_messages st)
               = mk_state (Some (get_messages st ++ [text_msg Assistant REFUSAL])) None
                          (Some (u "end")) None).
  { unfold decide_body. rewrite (first_user_question_none _ Hu).
    replace (is_time_related []) with false by (vm_compute; reflexivity). reflexivity. }
  unfold decide_next. cbv zeta.
  destruct (last_opt (get_messages st)) as [m|] eqn:L; [|exact Hb].
  rewrite (role_eqb_false _ _ (Hl m eq_refl)). exact Hb.
Qed.

Lemma decide_without_user_message_refuses_witness :
  let st := mk_state (Some [text_msg System (u "你是时间助手")]) None (Some (u "decide")) None in
  (forall m, In m (get_messages st) -> role m <> User) /\
  (forall m, last_opt (get_messages st) = Some m -> role m <> ToolRole) /\
  decide_next st = mk_state (Some (get_messages st ++ [text_msg Assistant REFUSAL])) None
                            (Some (u "end")) None.
Proof.
  intros st.
  assert (H1 : forall m, In m (get_messages st) -> role m <> User).
  { intros m Hm. simpl in Hm. destruct Hm as [<-|[]]. discriminate. }
  assert (H2 : forall m, last_opt (get_messages st) = Some m -> role m <> ToolRole).
  { intros m E. vm_compute in E. injection E as <-. discriminate. }
  split; [exact H1|]. split; [exact H2|].
  exact (decide_without_user_message_refuses st H1 H2).
Defined.

Lemma join_nil_head : forall sep ss,
  join sep ([] :: ss) = concat (map (fun s => sep ++ s) ss).
Proof.
  intros sep ss. induction ss as [|s ss IH]; [reflexivity|].
  change (join sep ([] :: s :: ss)) with ([] ++ sep ++ join sep (s :: ss)).
  cbn [map concat]. rewrite app_nil_l, <- IH, <- app_assoc. f_equal.
  destruct ss as [|s' ss]; [simpl; rewrite app_nil_r; reflexivity | reflexivity].
Qed.

(** Extra X17.  The summary joins one clause with a final 。, two clauses
    with ；, and any other number of clauses as a list in which every
    clause, the first included, is preceded by "<br>• ". *)
Theorem combine_summaries_by_count : forall ss,
  (forall s, combine_summaries [s] = s ++ u "。") /\
  (forall s1 s2, combine_summaries [s1; s2] = s1 ++ u "；" ++ s2 ++ u "。") /\
  (length ss <> 1%nat -> length ss <> 2%nat ->
   combine_summaries ss = concat (map (fun s => u "<br>• " ++ s) ss) ++ u "。").
Proof.
  intros ss. split; [reflexivity|]. split.
  - intros s1 s2. unfold combine_summaries. cbn [join]. rewrite <- !app_assoc. reflexivity.
  - intros H1 H2. unfold combine_summaries.
    destruct ss as [|a [|b [|c ss]]].
    + reflexivity.
    + contradiction H1; reflexivity.
    + contradiction H2; reflexivity.
    + rewrite join_nil_head. reflexivity.
Qed.

Lemma combine_summaries_by_count_witness :
  length [u "北京当前时间是 10:05:07"; u "东京当前时间是 11:05:07"; u "伦敦当前时间是 03:05:07"] <> 1%nat /\
  length [u "北京当前时间是 10:05:07"; u "东京当前时间是 11:05:07"; u "伦敦当前时间是 03:05:07"] <> 2%nat /\
  combine_summaries [u "北京当前时间是 10:05:07"; u "东京当前时间是 11:05:07"; u "伦敦当前时间是 03:05:07"]
  = u "<br>• 北京当前时间是 10:05:07<br>• 东京当前时间是 11:05:07<br>• 伦敦当前时间是 03:05:07。".
Proof.
  assert (H1 : length [u "北京当前时间是 10:05:07"; u "东京当前时间是 11:05:07"; u "伦敦当前时间是 03:05:07"] <> 1%nat)
    by (simpl; discriminate).
  assert (H2 : length [u "北京当前时间是 10:05:07"; u "东京当前时间是 11:05:07"; u "伦敦当前时间是 03:05:07"] <> 2%nat)
    by (simpl; discriminate).
  split; [exact H1|]. split; [exact H2|].
  rewrite (proj2 (proj2 (combine_summaries_by_count _)) H1 H2). vm_compute. reflexivity.
Defined.

Lemma decide_body_shapes : forall ms,
  (exists x, decide_body ms = mk_state (Some (ms ++ [text_msg Assistant x])) None (Some (u "end")) None) \/
  (exists m lt, decide_body ms = mk_state (Some (ms ++ [m])) (Some lt) (Some (u "call_tool")) None).
Proof.
  intros ms. unfold decide_body.
  destruct (first_user_question ms) as [q|]; [destruct (is_time_related q)|].
  - right. do 2 eexists. reflexivity.
  - left. eexists. reflexivity.
  - left. eexists. reflexivity.
Qed.

Lemma summarize_reply : forall all clock s,
  let s' := summarize_node all clock s in
  exists x, last_opt (get_messages s') = Some (text_msg Assistant x) /\ Console.time_reply s' = Some x.
Proof.
  intros all clock s s'. subst s'. unfold summarize_node. cbv zeta.
  eexists. split; [apply last_opt_app | reflexivity].
Qed.

Lemma end_reply : forall ms x,
  let s' := mk_state (Some (ms ++ [text_msg Assistant x])) None (Some (u "end")) None in
  last_opt (get_messages s') = Some (text_msg Assistant x) /\ Console.time_reply s' = Some x.
Proof.
  intros ms x s'. subst s'. split; [apply last_opt_app|].
  unfold Console.time_reply. cbn [mk_state st_ai_response st_messages].
  rewrite rev_app_distr. reflexivity.
Qed.

(** Extra X18.  For every input state, the time agent's run ends in a
    state whose last message is an assistant message, and the text
    [run_agent] shows for that result is that message's content. *)
Theorem time_reply_is_final_answer :
  forall (all_timezones : list pystr) (clock : pystr -> DateTime) (json_dumps : JVal -> pystr)
         (init : TState),
  exists st s,
    run_time_agent all_timezones clock json_dumps init = Some st /\
    last_opt (get_messages st) = Some (text_msg Assistant s) /\
    Console.time_reply st = Some s.
Proof.
  intros all clock jd init.
  assert (Hb : forall ms, decide_next init = decide_body ms ->
     exists st s, run_time_agent all clock jd init = Some st /\
       last_opt (get_messages st) = Some (text_msg Assistant s) /\ Console.time_reply st = Some s).
  { intros ms D. unfold run_time_agent. rewrite D.
    destruct (decide_body_shapes ms) as [[x E]|[m [lt E]]]; rewrite E;
      cbn [mk_state st_next]; cbv iota; eval_lit_eqbs.
    - destruct (end_reply ms x) as [H1 H2]. do 2 eexists. split; [reflexivity|]. split; [exact H1 | exact H2].
    - destruct (summarize_reply all clock
                  (call_tool_node all clock jd (mk_state (Some (ms ++ [m])) (Some lt) (Some (u "call_tool")) None)))
        as [x [H1 H2]].
      do 2 eexists. split; [reflexivity|]. split; [exact H1 | exact H2]. }
  destruct (last_opt (get_messages init)) as [m|] eqn:L.
  - destruct (role_eqb (role m) ToolRole) eqn:R.
    + unfold run_time_agent.
      assert (D : decide_next init = mk_state (Some (get_messages init)) None (Some (u "summarize")) None)
        by (unfold decide_next; cbv zeta; rewrite L, R; reflexivity).
      rewrite D. cbn [mk_state st_next]. cbv iota. eval_lit_eqbs.
      destruct (summarize_reply all clock (mk_state (Some (get_messages init)) None (Some (u "summarize")) None))
        as [x [H1 H2]].
      do 2 eexists. split; [reflexivity|]. split; [exact H1 | exact H2].
    + apply (Hb (get_messages init)). unfold decide_next. cbv zeta. rewrite L, R. reflexivity.
  - apply (Hb (get_messages init)). unfold decide_next. cbv zeta. rewrite L. reflexivity.
Qed.

End TimeExtraFacts.

(* ------------------------------------------------------------------ *)
(** ** Further properties of the general agent *)

Module GeneralExtraFacts.
Import Tools General.

Lemma user_messages_app : forall ui l1 l2,
  List.length (filter (same_user_message ui) (l1 ++ l2)) = (List.length (filter (same_user_message ui) l1) + List.length (filter (same_user_message ui) l2))%nat.
Proof. intros. rewrite filter_app, length_app. reflexivity. Qed.

Lemma existsb_count : forall ui ms, existsb (same_user_message ui) ms = false ->
  List.length (filter (same_user_message ui) ms) = O.
Proof.
  intros ui ms H. induction ms as [|m ms IH]; [reflexivity|].
  simpl in H. apply orb_false_iff in H as [H1 H2]. simpl. rewrite H1. exact (IH H2).
Qed.

Lemma existsb_count_pos : forall ui ms, existsb (same_user_message ui) ms = true ->
  (1 <= List.length (filter (same_user_message ui) ms))%nat.
Proof.
  intros ui ms H. induction ms as [|m ms IH]; [discriminate|].
  simpl in H. simpl. destruct (same_user_message ui m); simpl; [lia|].
  exact (IH H).
Qed.

(** Extra X19.  With a non-empty user input, the decision node only
    appends to the conversation.  When the decision call returns, the
    user's input appears as a user message at least once and is not added
    again if already present.  When the call fails, the input is appended
    once more even if already present. *)
Theorem should_use_tool_user_message_count :
  forall (st : AgentState) (resp : DecisionCompletion) (ui : pystr),
  user_input st = Some ui -> ui <> [] ->
  exists up new, should_use_tool st resp = NodeOk up /\
    up_messages up = Some (messages st ++ new) /\
    List.length (filter (same_user_message ui) (messages st ++ new))
    = match resp with
      | DecisionFailed _ => S (List.length (filter (same_user_message ui) (messages st)))
      | DecisionReturned _ _ => Nat.max 1 (List.length (filter (same_user_message ui) (messages st)))
      end.
Proof.
  intros st resp ui Hui Hne.
  assert (Hu : List.length (filter (same_user_message ui) [text_msg User ui]) = 1%nat)
    by (simpl; unfold same_user_message; simpl; rewrite str_eqb_refl; reflexivity).
  assert (Ha : forall c, List.length (filter (same_user_message ui) [{| role := Assistant; content := c; tool_calls := None; mname := None |}]) = O)
    by reflexivity.
  assert (Hc : forall calls, List.length (filter (same_user_message ui) [calls_msg calls]) = O) by reflexivity.
  assert (Ht : truthy ui = true) by (destruct ui; [contradiction Hne; reflexivity | reflexivity]).
  unfold should_use_tool. rewrite Hui. cbv beta zeta. rewrite Ht. cbv iota.
  destruct resp as [e|c calls].
  - do 2 eexists. split; [reflexivity|]. split; [reflexivity|].
    assert (Hat : forall s, List.length (filter (same_user_message ui) [text_msg Assistant s]) = O) by reflexivity.
    rewrite !user_messages_app, Hu, Hat. lia.
  - destruct (existsb (same_user_message ui) (messages st)) eqn:E.
    + pose proof (existsb_count_pos _ _ E) as P.
      destruct calls as [|cl calls].
      * do 2 eexists. split; [reflexivity|]. split; [reflexivity|].
        rewrite user_messages_app, Ha. lia.
      * do 2 eexists. split; [reflexivity|]. split; [reflexivity|].
        rewrite user_messages_app, Hc. lia.
    + pose proof (existsb_count _ _ E) as P.
      destruct calls as [|cl calls].
      * do 2 eexists. split; [reflexivity|]. split; [rewrite <- app_assoc; reflexivity|].
        rewrite !user_messages_app, Hu, Ha, P. reflexivity.
      * do 2 eexists. split; [reflexivity|]. split; [rewrite <- app_assoc; reflexivity|].
        rewrite !user_messages_app, Hu, Hc, P. reflexivity.
Qed.

Lemma should_use_tool_user_message_count_witness :
  let st := {| messages := [text_msg User (u "你好")]; user_input := Some (u "你好");
               next := DIRECT_ANSWER |} in
  user_input st = Some (u "你好") /\ u "你好" <> [] /\
  exists up new, should_use_tool st (DecisionReturned (Some (u "你好！")) []) = NodeOk up /\
    up_messages up = Some (messages st ++ new) /\
    List.length (filter (same_user_message (u "你好")) (messages st ++ new))
    = Nat.max 1 (List.length (filter (same_user_message (u "你好")) (messages st))).
Proof.
  intros st.
  assert (H1 : user_input st = Some (u "你好")) by reflexivity.
  assert (H2 : u "你好" <> []) by (vm_compute; discriminate).
  split; [exact H1|]. split; [exact H2|].
  exact (should_use_tool_user_message_count st (DecisionReturned (Some (u "你好！")) []) _ H1 H2).
Defined.

Section Exec.
Variable json_loads : pystr -> option JVal.
Variable json_dumps : JVal -> pystr.

(** Extra X20.  [execute_tool] on an empty conversation raises IndexError
    (list index out of range) without calling a tool; when the last message
    has no tool calls (absent or empty) it calls no tool and leaves the
    state unchanged. *)
Theorem execute_tool_without_calls :
  forall (reg : Registry) (st : AgentState),
  (messages st = [] ->
   execute_tool json_loads json_dumps reg st
   = {| ex_result := NodeRaised (u "list index out of range"); ex_invocations := [] |}) /\
  (forall m, last_opt (messages st) = Some m -> (tool_calls m = None \/ tool_calls m = Some []) ->
   exists up, execute_tool json_loads json_dumps reg st = {| ex_result := NodeOk up; ex_invocations := [] |} /\
     apply_update st up = st).
Proof.
  intros reg st. unfold execute_tool. cbv zeta. split.
  - intros H. rewrite H. reflexivity.
  - intros m L T. rewrite L. eexists. split.
    + destruct T as [T|T]; rewrite T; reflexivity.
    + destruct st; reflexivity.
Qed.

End Exec.

Lemma execute_tool_without_calls_witness :
  let st := {| messages := [text_msg User (u "你好"); text_msg Assistant (u "你好！")];
               user_input := Some (u "你好"); next := DIRECT_ANSWER |} in
  last_opt (messages st) = Some (text_msg Assistant (u "你好！")) /\
  (tool_calls (text_msg Assistant (u "你好！")) = None \/ tool_calls (text_msg Assistant (u "你好！")) = Some []) /\
  exists up, execute_tool (fun _ => None) (fun _ => []) create_tool_registry st
             = {| ex_result := NodeOk up; ex_invocations := [] |} /\ apply_update st up = st.
Proof.
  intros st.
  assert (H1 : last_opt (messages st) = Some (text_msg Assistant (u "你好！"))) by reflexivity.
  assert (H2 : tool_calls (text_msg Assistant (u "你好！")) = None \/
               tool_calls (text_msg Assistant (u "你好！")) = Some []) by (left; reflexivity).
  split; [exact H1|]. split; [exact H2|].
  exact (proj2 (execute_tool_without_calls (fun _ => None) (fun _ => []) create_tool_registry st) _ H1 H2).
Defined.

(** Extra X21.  [generate_answer] never changes [next] and leaves the
    conversation unchanged unless it ends with a tool message; then it
    appends exactly one assistant message, or the summary call's exception
    escapes.  On an empty conversation it answers 抱歉，我无法提供回答。. *)
Theorem generate_answer_appends_only_after_tool :
  forall (st : AgentState) (ans : Intent.Completion),
  match generate_answer st ans with
  | NodeOk up =>
      up_next up = None /\
      (up_messages up = None \/
       exists ms m a, messages st = ms ++ [m] /\ role m = ToolRole /\
         up_messages up = Some (messages st ++ [a]) /\ role a = Assistant /\ tool_calls a = None)
  | NodeRaised _ => exists ms m, messages st = ms ++ [m] /\ role m = ToolRole
  | NodeOutside => False
  end /\
  (messages st = [] -> generate_answer st ans
     = NodeOk {| up_messages := None; up_next := None; up_ai_response := Some NO_ANSWER |}).
Proof.
  intros st ans. split; [|intros H; unfold generate_answer; rewrite H; reflexivity].
  unfold generate_answer.
  destruct (last_opt (messages st)) as [m|] eqn:L; [|split; [reflexivity | left; reflexivity]].
  assert (Hs : exists ms, messages st = ms ++ [m]).
  { clear -L. revert L. generalize (messages st) as l. intros l.
    induction l as [|x l IH]; intros L; [discriminate|].
    destruct l as [|y l].
    - injection L as ->. exists []. reflexivity.
    - destruct (IH L) as [ms E]. exists (x :: ms). rewrite E. reflexivity. }
  destruct Hs as [ms Hs].
  destruct (role m) eqn:R; try (split; [reflexivity | left; reflexivity]).
  destruct ans as [e|c].
  - exists ms, m. split; [exact Hs | exact R].
  - split; [reflexivity|]. right. exists ms, m. eexists.
    split; [exact Hs|]. split; [exact R|]. split; [reflexivity|]. split; reflexivity.
Qed.

Lemma generate_answer_appends_only_after_tool_witness :
  let st := {| messages := []; user_input := None; next := DIRECT_ANSWER |} in
  messages st = [] /\
  generate_answer st (Intent.CallFailed (u "timeout"))
  = NodeOk {| up_messages := None; up_next := None; up_ai_response := Some NO_ANSWER |}.
Proof.
  intros st. assert (H : messages st = []) by reflexivity. split; [exact H|].
  exact (proj2 (generate_answer_appends_only_after_tool st (Intent.CallFailed (u "timeout"))) H).
Defined.

(** Extra X22.  When the decision call returns no tool calls, the run
    visits DECISION and ANSWER only, invokes no tool, and ends with the
    model's reply as the last message and [next] = "direct_answer". *)
Theorem direct_reply_invokes_no_tool :
  forall (json_loads : pystr -> option JVal) (json_dumps : JVal -> pystr) (reg : Registry)
         (st0 : AgentState) (c : option pystr) (ans : Intent.Completion),
  let r := run_general json_loads json_dumps reg st0 (DecisionReturned c []) ans in
  run_trace r = [NDecision; NAnswer] /\ run_invocations r = [] /\
  exists st ms, run_state r = Some st /\
    messages st = ms ++ [{| role := Assistant; content := content_of c; tool_calls := None; mname := None |}] /\
    next st = DIRECT_ANSWER.
Proof.
  intros jl jd reg st0 c ans r. subst r. unfold run_general.
  unfold should_use_tool. cbv zeta.
  set (updated := match (match user_input st0 with Some s => if truthy s then Some s else None | None => None end) with
                  | Some s => if existsb (same_user_message s) (messages st0) then messages st0
                              else messages st0 ++ [text_msg User s]
                  | None => messages st0 end).
  set (am := {| role := Assistant; content := content_of c; tool_calls := None; mname := None |}).
  set (s1 := apply_update st0 {| up_messages := Some (updated ++ [am]); up_next := Some DIRECT_ANSWER;
                                 up_ai_response := Some (match c with Some s => s | None => [] end) |}).
  change (next s1) with DIRECT_ANSWER. rewrite GeneralFacts.str_eqb_DIRECT_TOOL, str_eqb_refl.
  split; [reflexivity|]. split; [reflexivity|].
  destruct (GeneralFacts.generate_answer_after_assistant s1 ans updated am eq_refl eq_refl) as [a Ha].
  rewrite Ha. exists (apply_update s1 {| up_messages := None; up_next := None; up_ai_response := a |}), updated.
  split; [reflexivity|]. split; reflexivity.
Qed.

End GeneralExtraFacts.

(* ------------------------------------------------------------------ *)
(** ** Console output *)

Module ConsoleFacts.
Import Console.

Lemma printed_app : forall a b, printed (a ++ b) = printed a ++ printed b.
Proof.
  intros a b. induction a as [|[s|k] a IH]; simpl; [reflexivity | rewrite IH, app_assoc; reflexivity | exact IH].
Qed.

Lemma sleeps_app : forall a b, sleeps (a ++ b) = sleeps a ++ sleeps b.
Proof.
  intros a b. induction a as [|[s|k] a IH]; simpl; [reflexivity | exact IH | rewrite IH; reflexivity].
Qed.

Lemma paragraph_printed : forall p, printed (paragraph_effects p) = p /\
  sleeps (paragraph_effects p) = map char_weight p.
Proof.
  intros p. induction p as [|ch p [IH1 IH2]]; [split; reflexivity|].
  unfold paragraph_effects in *. cbn [flat_map].
  rewrite printed_app, sleeps_app, IH1, IH2. split; reflexivity.
Qed.

Lemma join_cons_head : forall sep x p ps, join sep ((x :: p) :: ps) = x :: join sep (p :: ps).
Proof. intros sep x p [|q ps]; reflexivity. Qed.

Lemma paragraphs_printed : forall ps,
  printed (paragraphs_effects ps) = join [10] ps /\
  sleeps (paragraphs_effects ps) = map char_weight (concat ps).
Proof.
  induction ps as [|p ps IH]; [split; reflexivity|].
  destruct ps as [|q ps].
  - cbn [paragraphs_effects join concat]. rewrite app_nil_r. apply paragraph_printed.
  - destruct IH as [IH1 IH2].
    change (paragraphs_effects (p :: q :: ps))
      with (paragraph_effects p ++ [Emit [10]] ++ paragraphs_effects (q :: ps)).
    destruct (paragraph_printed p) as [P1 P2].
    rewrite !printed_app, !sleeps_app, P1, P2, IH1, IH2.
    split; [reflexivity|]. cbn [concat sleeps]. rewrite !map_app. reflexivity.
Qed.

Lemma split_on_nonempty : forall c s, split_on c s <> [].
Proof.
  intros c [|x s]; simpl; [discriminate|].
  destruct (x =? c); [discriminate|]. destruct (split_on c s); discriminate.
Qed.

Lemma split_on_join : forall c s,
  join [c] (split_on c s) = s /\ concat (split_on c s) = filter (fun x => negb (x =? c)) s.
Proof.
  intros c s. induction s as [|x s [IH1 IH2]]; [split; reflexivity|].
  cbn [split_on filter]. destruct (x =? c) eqn:E.
  - apply Z.eqb_eq in E. subst x. cbn [negb].
    destruct (split_on c s) as [|p ps] eqn:S; [exfalso; exact (split_on_nonempty c s S)|].
    split; [|exact IH2].
    change (join [c] ([] :: p :: ps)) with ([] ++ [c] ++ join [c] (p :: ps)). rewrite IH1. reflexivity.
  - cbn [negb].
    destruct (split_on c s) as [|p ps] eqn:S; [exfalso; exact (split_on_nonempty c s S)|].
    split; [rewrite join_cons_head; f_equal; exact IH1|]. cbn [concat app]. f_equal. exact IH2.
Qed.

(** Extra X23.  [typewriter_print] writes a newline, the prefix, the text
    unchanged (newlines included) and a final newline; it sleeps once per
    character that is not a newline, with delay factor 2 after , ， ; ； :
    ：, 3 after . 。 ! ！ ? ？ and 1 otherwise. *)
Theorem typewriter_print_output : forall text prefix,
  printed (typewriter_print text prefix) = [10] ++ prefix ++ text ++ [10] /\
  sleeps (typewriter_print text prefix) = map char_weight (filter (fun c => negb (c =? 10)) text).
Proof.
  intros text prefix. unfold typewriter_print.
  destruct (paragraphs_printed (split_on 10 text)) as [P1 P2].
  destruct (split_on_join 10 text) as [J1 J2].
  rewrite !printed_app, !sleeps_app, P1, P2, J1, J2.
  cbn [printed sleeps]. rewrite !app_nil_r, <- !app_assoc. split; reflexivity.
Qed.

End ConsoleFacts.
